(** * Frame desktop shell: window factory, external-link gate,
      block-explorer URL resolution and the Dapps view selector.

    Shallow embedding of

    - [src/unnamed/part_000] (the main-process window module):
      [createWindow], [createViewInstance], [createOverlayInstance],
      [externalWhitelist], [isValidReleasePage], [isWhitelistedHost],
      [openExternal], [urlExists], [getTokenUrl], [openBlockExplorer];
    - [src/app/tray/Account/Contacts/index.js]: [Dapps.render].

    JavaScript objects are finite maps from property names to values, and
    every routine with side effects runs in a small monad [M] that reads
    the platform (configuration store, network, process environment) and
    produces the trace of the effects it performed together with a settled
    result: fulfilled with a value, or rejected with the exception that
    escaped.

    Strings are [string], read as the UTF-8 bytes of the JavaScript string.
    The module only concatenates strings, compares them for equality, tests
    for a prefix and strips trailing ['/']; on these operations bytes and
    UTF-16 code units agree.

    Inputs are the ones the TypeScript signatures admit: a [string] is a
    string, an optional field is a string or [undefined]. *)

From Stdlib Require Import String Ascii List ZArith Bool Lia.
From stdpp Require Import base gmap strings list fin_maps.
Import ListNotations.
Local Open Scope string_scope.
Local Open Scope list_scope.
Local Open Scope Z_scope.

(* ===================================================================== *)
(** ** JavaScript values                                                  *)
(* ===================================================================== *)

Module Js.

(** The values the modelled code inspects.  Arrays and functions are
    objects as far as truthiness and member access are concerned. *)
#[warnings="-register-all"] Inductive jsval : Type :=
| JUndefined
| JNull
| JBool (b : bool)
| JNum (n : Z)
| JNaN
| JStr (s : string)
| JObj (fields : gmap string jsval).

(** What a [throw] carries: a [TypeError] raised by the platform, or any
    other value. *)
Inductive exn : Type :=
| TypeError (msg : string)
| Thrown (value : jsval).

(** A settled computation: a returned value (fulfilled promise) or an
    exception that escaped (rejected promise). *)
Inductive settled (A : Type) : Type :=
| Fulfilled (a : A)
| Rejected (e : exn).
Arguments Fulfilled {A} a.
Arguments Rejected {A} e.

(** ToBoolean. *)
Definition truthy (v : jsval) : bool :=
  match v with
  | JUndefined | JNull | JNaN => false
  | JBool b => b
  | JNum n => negb (n =? 0)
  | JStr s => negb (s =? "")%string
  | JObj _ => true
  end.

(** [a || b] on values. *)
Definition or (a b : jsval) : jsval := if truthy a then a else b.

(** [v.k].  Reading a member of [undefined] or [null] throws; an object
    yields its own property or [undefined]; the primitives have no
    member under the names the modelled code reads. *)
Definition member (v : jsval) (k : string) : settled jsval :=
  match v with
  | JUndefined | JNull =>
      Rejected (TypeError ("Cannot read properties of undefined or null: " +:+ k))
  | JObj fields => Fulfilled (default JUndefined (fields !! k))
  | _ => Fulfilled JUndefined
  end.

(** [{ ...base, k1: v1, ..., kn: vn }]: the properties of [base], then
    the listed ones in source order, later keys replacing earlier ones. *)
Definition spread_then (base : gmap string jsval)
           (kvs : list (string * jsval)) : gmap string jsval :=
  foldl (fun m kv => <[kv.1 := kv.2]> m) base kvs.

(** An optional object parameter spread into a literal: [undefined]
    contributes no property. *)
Definition spread_of (o : option (gmap string jsval)) : gmap string jsval :=
  default ∅ o.

(** *** Optional strings ([string | undefined]) *)

(** ToBoolean on a string, and on [string | undefined]. *)
Definition truthy_string (s : string) : bool := negb (s =? "")%string.

Definition truthy_str (o : option string) : bool :=
  match o with
  | Some s => truthy_string s
  | None => false
  end.

(** [a || b] where [b] is a string. *)
Definition or_str (a : option string) (b : string) : string :=
  match a with
  | Some s => if truthy_string s then s else b
  | None => b
  end.

(** A value interpolated in a template literal. *)
Definition interpolate (o : option string) : string :=
  match o with
  | Some s => s
  | None => "undefined"
  end.

(** [s.startsWith(p)]. *)
Definition startsWith (s p : string) : bool := String.prefix p s.

(** [s.replace(/\/+$/, '')]: the match starts at the leftmost position
    from which a non-empty run of ['/'] reaches the end of the input,
    and is replaced by the empty string. *)
Fixpoint all_slashes (s : string) : bool :=
  match s with
  | EmptyString => true
  | String c r => Ascii.eqb c "/" && all_slashes r
  end.

Fixpoint replace_trailing_slashes (s : string) : string :=
  match s with
  | EmptyString => EmptyString
  | String c r =>
      if Ascii.eqb c "/" && all_slashes r then EmptyString
      else String c (replace_trailing_slashes r)
  end.

(** [bs.findIndex((x) => x)]. *)
Fixpoint findIndex (bs : list bool) : Z :=
  match bs with
  | [] => -1
  | b :: r =>
      if b then 0
      else let i := findIndex r in if i <? 0 then -1 else i + 1
  end.

(** [xs[i]] for a numeric index: [undefined] out of range. *)
Definition index {A} (xs : list A) (i : Z) : option A :=
  if i <? 0 then None else xs !! Z.to_nat i.

End Js.
Export Js.

(* ===================================================================== *)
(** ** Effects and the platform                                           *)
(* ===================================================================== *)

(** What the Fetch API hands back for a request that completed. *)
Record Response : Type := mkResponse {
  redirected : bool;
  status : Z
}.

(** [response.ok]: the status is in the success range 200..299. *)
Definition ok (r : Response) : bool :=
  (200 <=? status r) && (status r <=? 299).

(** The observable actions of the module, in the order they happen. *)
Inductive effect : Type :=
| ShellOpenExternal (url : string)
| FetchRequest (url method redirect : string)
| ConsoleLog (e : exn)
| LogVerbose (msg : string)
| LogInfo (msg : string) (pid : Z).

(** Everything the module reads from outside itself. *)
Record Platform : Type := mkPlatform {
  (** [store('main.networks', type, id, 'explorer')] *)
  store_explorer : string -> Z -> option string;
  (** how a HEAD request to a URL settles *)
  fetch_head : string -> settled Response;
  (** [process.platform] *)
  process_platform : string;
  (** [process.env.BUNDLE_LOCATION] *)
  BUNDLE_LOCATION : string;
  (** [path.resolve(...segments)] *)
  path_resolve : list string -> string;
  (** [webContents.getOSProcessId()] *)
  os_process_id : Z
}.

(** A computation: reads the platform, performs effects, settles. *)
Definition M (A : Type) : Type := Platform -> list effect * settled A.

Definition ret {A} (a : A) : M A := fun _ => ([], Fulfilled a).

Definition bind {A B} (m : M A) (f : A -> M B) : M B :=
  fun p =>
    match m p with
    | (t1, Fulfilled a) => let '(t2, r) := f a p in (t1 ++ t2, r)
    | (t1, Rejected e) => (t1, Rejected e)
    end.

Notation "'let*' x ':=' m 'in' k" := (bind m (fun x => k))
  (at level 10, x name, m at level 100, k at level 200).

(** [try { m } catch (error) { h error }] *)
Definition try_catch {A} (m : M A) (h : exn -> M A) : M A :=
  fun p =>
    match m p with
    | (t1, Fulfilled a) => (t1, Fulfilled a)
    | (t1, Rejected e) => let '(t2, r) := h e p in (t1 ++ t2, r)
    end.

Definition perform (e : effect) : M unit := fun _ => ([e], Fulfilled tt).
Definition ask : M Platform := fun p => ([], Fulfilled p).

(** [await Promise.all(ms)]: every computation runs (all were started by
    the time the join is awaited); the join is fulfilled with the results
    in list order, or rejected if one of them was.  The trace lists the
    effects of each computation in turn: how the effects of computations
    that run concurrently interleave is not represented, and no statement
    below depends on it. *)
Fixpoint promise_all {A} (ms : list (M A)) : M (list A) :=
  match ms with
  | [] => ret []
  | m :: rest =>
      fun p =>
        let '(t1, r1) := m p in
        let '(t2, r2) := promise_all rest p in
        (t1 ++ t2,
         match r1, r2 with
         | Fulfilled a, Fulfilled l => Fulfilled (a :: l)
         | Rejected e, _ => Rejected e
         | _, Rejected e => Rejected e
         end)
  end.

(** [shell.openExternal(url)], not awaited by any caller. *)
Definition shell_openExternal (url : string) : M unit :=
  perform (ShellOpenExternal url).

(** [fetch(url, { method: 'HEAD', redirect: 'manual' })] *)
Definition fetch (url method redirect : string) : M Response :=
  fun p => ([FetchRequest url method redirect], fetch_head p url).

Definition console_log (e : exn) : M unit := perform (ConsoleLog e).

(* ===================================================================== *)
(** ** Browsing surfaces (the part of Electron the factory touches)       *)
(* ===================================================================== *)

(** A cancellable event as the listeners see it. *)
Record Event : Type := mkEvent {
  defaultPrevented : bool
}.

(** [e.preventDefault()] *)
Definition preventDefault (e : Event) : Event :=
  {| defaultPrevented := true |}.

(** The answer of a window-open handler. *)
Record WindowOpenResponse : Type := mkWindowOpenResponse {
  action : string
}.

Record Listener : Type := mkListener {
  event_name : string;
  once_only : bool;
  handler : Event -> M Event
}.

Record WebContents : Type := mkWebContents {
  listeners : list Listener;
  windowOpenHandler : option (string -> WindowOpenResponse)
}.

Definition WebContents_new : WebContents :=
  {| listeners := []; windowOpenHandler := None |}.

(** [webContents.on(name, h)] and [webContents.once(name, h)]: listeners
    are kept in registration order. *)
Definition on (name : string) (h : Event -> M Event) (wc : WebContents)
  : WebContents :=
  {| listeners := listeners wc ++ [mkListener name false h];
     windowOpenHandler := windowOpenHandler wc |}.

Definition once (name : string) (h : Event -> M Event) (wc : WebContents)
  : WebContents :=
  {| listeners := listeners wc ++ [mkListener name true h];
     windowOpenHandler := windowOpenHandler wc |}.

(** [webContents.setWindowOpenHandler(h)] *)
Definition setWindowOpenHandler (h : string -> WindowOpenResponse)
           (wc : WebContents) : WebContents :=
  {| listeners := listeners wc; windowOpenHandler := Some h |}.

(** Delivery of one event: the listeners registered under its name run in
    registration order on the same event object. *)
Fixpoint deliver (name : string) (ls : list Listener) (e : Event) : M Event :=
  match ls with
  | [] => ret e
  | l :: rest =>
      if (event_name l =? name)%string
      then let* e' := handler l e in deliver name rest e'
      else deliver name rest e
  end.

Definition emit (name : string) (wc : WebContents) (e : Event) : M Event :=
  deliver name (listeners wc) e.

(** What the platform does with a request to open a new window for [url]:
    it asks the handler, if one is set. *)
Definition window_open_request (wc : WebContents) (url : string)
  : option WindowOpenResponse :=
  match windowOpenHandler wc with
  | Some h => Some (h url)
  | None => None
  end.

(** [new BrowserWindow(options)] / [new BrowserView(options)]: the surface
    keeps the options it was constructed with and owns a web contents. *)
Record BrowserWindow : Type := mkBrowserWindow {
  window_options : gmap string jsval;
  window_webContents : WebContents
}.

Record BrowserView : Type := mkBrowserView {
  view_options : gmap string jsval;
  view_webContents : WebContents
}.

(* ===================================================================== *)
(** ** The window factory  (part_000, lines 26-117)                       *)
(* ===================================================================== *)

Definition createWindow (name : string)
           (opts : option (gmap string jsval))
           (webPreferences : option (gmap string jsval)) : M BrowserWindow :=
  let* _ := perform (LogVerbose ("Creating " +:+ name +:+ " window")) in
  let* p := ask in
  let options :=
    spread_then (spread_of opts)
      [ ("frame", JBool false);
        ("acceptFirstMouse", JBool true);
        ("transparent", JBool (process_platform p =? "darwin")%string);
        ("show", JBool false);
        ("skipTaskbar", JBool (negb (process_platform p =? "linux")%string));
        ("webPreferences",
          JObj (spread_then (spread_of webPreferences)
            [ ("preload", JStr (path_resolve p [BUNDLE_LOCATION p; "bridge.js"]));
              ("backgroundThrottling", JBool false);
              ("contextIsolation", JBool true);
              ("webviewTag", JBool false);
              ("sandbox", JBool true);
              ("defaultEncoding", JStr "utf-8");
              ("nodeIntegration", JBool false);
              ("scrollBounce", JBool true);
              ("navigateOnDragDrop", JBool false);
              ("disableBlinkFeatures", JStr "Auxclick") ])) ] in
  let webContents := WebContents_new in
  let webContents :=
    once "did-finish-load"
      (fun e =>
         let* q := ask in
         let* _ := perform (LogInfo ("Created " +:+ name +:+ " renderer process, pid:")
                                    (os_process_id q)) in
         ret e)
      webContents in
  let webContents := on "will-navigate" (fun e => ret (preventDefault e)) webContents in
  let webContents := on "will-attach-webview" (fun e => ret (preventDefault e)) webContents in
  let webContents := setWindowOpenHandler (fun _ => {| action := "deny" |}) webContents in
  ret {| window_options := options; window_webContents := webContents |}.

Definition createViewInstance (ens : option string)
           (webPreferences : option (gmap string jsval)) : M BrowserView :=
  let ens := default "" ens in
  let* p := ask in
  let options :=
    spread_then ∅
      [ ("webPreferences",
          JObj (spread_then (spread_of webPreferences)
            [ ("contextIsolation", JBool true);
              ("webviewTag", JBool false);
              ("sandbox", JBool true);
              ("defaultEncoding", JStr "utf-8");
              ("nodeIntegration", JBool false);
              ("scrollBounce", JBool false);
              ("navigateOnDragDrop", JBool false);
              ("disableBlinkFeatures", JStr "Auxclick");
              ("preload", JStr (path_resolve p ["./main/windows/viewPreload.js"]));
              ("partition", JStr ("persist:" +:+ ens)) ])) ] in
  let webContents := WebContents_new in
  let webContents := on "will-navigate" (fun e => ret (preventDefault e)) webContents in
  let webContents := on "will-attach-webview" (fun e => ret (preventDefault e)) webContents in
  let webContents := setWindowOpenHandler (fun _ => {| action := "deny" |}) webContents in
  ret {| view_options := options; view_webContents := webContents |}.

Definition createOverlayInstance (url : option string)
           (webPreferences : option (gmap string jsval)) : M BrowserView :=
  let* p := ask in
  let options :=
    spread_then ∅
      [ ("webPreferences",
          JObj (spread_then (spread_of webPreferences)
            [ ("contextIsolation", JBool true);
              ("webviewTag", JBool false);
              ("sandbox", JBool true);
              ("defaultEncoding", JStr "utf-8");
              ("nodeIntegration", JBool false);
              ("scrollBounce", JBool true);
              ("navigateOnDragDrop", JBool false);
              ("disableBlinkFeatures", JStr "Auxclick");
              ("preload", JStr (path_resolve p [BUNDLE_LOCATION p; "bridge.js"])) ])) ] in
  let webContents := WebContents_new in
  let webContents := on "will-navigate" (fun e => ret (preventDefault e)) webContents in
  let webContents := on "will-attach-webview" (fun e => ret (preventDefault e)) webContents in
  let webContents := setWindowOpenHandler (fun _ => {| action := "deny" |}) webContents in
  ret {| view_options := options; view_webContents := webContents |}.

(* ===================================================================== *)
(** ** The external navigation gate  (part_000, lines 119-145)            *)
(* ===================================================================== *)

Definition externalWhitelist : list string :=
  [ "https://frame.sh";
    "https://chrome.google.com/webstore/detail/frame-alpha/ldcoohedfbjoobcadoglnnmmfbdlmmhf";
    "https://addons.mozilla.org/en-US/firefox/addon/frame-extension";
    "https://github.com/floating/frame/issues/new";
    "https://github.com/floating/frame/blob/master/LICENSE";
    "https://github.com/floating/frame/blob/0.5/LICENSE";
    "https://shop.ledger.com/pages/ledger-nano-x?r=1fb484cde64f";
    "https://shop.trezor.io/?offer_id=10&aff_id=3270";
    "https://discord.gg/UH7NGqY";
    "https://frame.canny.io";
    "https://feedback.frame.sh";
    "https://wiki.trezor.io/Trezor_Bridge";
    "https://opensea.io" ].

Definition isValidReleasePage (url : string) : bool :=
  startsWith url "https://github.com/floating/frame/releases/tag"
  || startsWith url "https://github.com/frame-labs/frame-canary/releases/tag".

Definition isWhitelistedHost (url : string) : bool :=
  existsb (fun entry => (url =? entry)%string || startsWith url (entry +:+ "/"))
          externalWhitelist.

Definition openExternal (url : option string) : M unit :=
  let url := default "" url in
  if isWhitelistedHost url || isValidReleasePage url
  then shell_openExternal url
  else ret tt.

(* ===================================================================== *)
(** ** Explorer URL resolution  (part_000, lines 15-24 and 147-186)       *)
(* ===================================================================== *)

Record Chain : Type := mkChain {
  chain_id : Z;
  chain_type : string
}.

(** ['tx' | 'address' | 'token'] *)
Module ExplorerType.
Inductive t : Type := tx | address | token.
End ExplorerType.

Record OpenExplorer : Type := mkOpenExplorer {
  chain : Chain;
  type : ExplorerType.t;
  hash : option string;
  address : option string;
  tokenId : option string
}.

Definition urlExists (url : string) : M bool :=
  try_catch
    (let* response := fetch url "HEAD" "manual" in
     ret (negb (redirected response) && ok response))
    (fun error =>
       let* _ := console_log error in
       ret false).

Definition getTokenUrl (explorer address : string) (tokenId : option string)
  : M (option string) :=
  let tokenPath := explorer +:+ "/token/" +:+ address in
  let nftPath := explorer +:+ "/nft/" +:+ address +:+ "/" +:+ interpolate tokenId in
  if negb (truthy_str tokenId) then ret (Some tokenPath)
  else
    let urls := [nftPath; tokenPath] in
    let* urlExistenceList := promise_all (map urlExists urls) in
    let existingUrlIndex := findIndex urlExistenceList in
    if existingUrlIndex >=? 0
    then ret (index urls existingUrlIndex)
    else ret (Some (explorer +:+ "/address/" +:+ address)).

(** [a && b] where [a : string | undefined]: [b] is evaluated only when
    [a] is truthy (and then [a] is a string); otherwise the value is [a]. *)
Definition and_then (a : option string) (b : string -> M (option string))
  : M (option string) :=
  match a with
  | Some s => if truthy_string s then b s else ret a
  | None => ret a
  end.

Definition openBlockExplorer (openExplorer : OpenExplorer) : M unit :=
  let '(mkOpenExplorer chain type hash address tokenId) := openExplorer in
  let* p := ask in
  let explorer :=
    replace_trailing_slashes
      (or_str (store_explorer p (chain_type chain) (chain_id chain)) "") in
  if negb (truthy_string explorer) then ret tt
  else
    let urlFormats (t : ExplorerType.t) : option (M (option string)) :=
      match t with
      | ExplorerType.tx =>
          Some (and_then hash (fun hash =>
                  ret (Some (explorer +:+ "/tx/" +:+ hash))))
      | ExplorerType.token =>
          Some (and_then address (fun address =>
                  getTokenUrl explorer address tokenId))
      | ExplorerType.address =>
          Some (and_then address (fun address =>
                  ret (Some (explorer +:+ "/address/" +:+ address))))
      end in
    let* explorerUrl :=
      match (if truthy_string explorer then urlFormats type else None) with
      | Some format => format
      | None => ret (Some explorer)
      end in
    shell_openExternal (or_str explorerUrl explorer).

(* ===================================================================== *)
(** ** The Dapps view selector  (Contacts/index.js, lines 9-18)           *)
(* ===================================================================== *)

Inductive Component : Type := OriginExpanded | DappsExpanded | DappsPreview.

(** A React element: the component chosen and the props handed to it. *)
Record Element : Type := mkElement {
  component : Component;
  element_props : gmap string jsval
}.

(** [Dapps.prototype.render], with [this.props] as its argument. *)
Definition Dapps_render (props : gmap string jsval) : settled Element :=
  let expandedData := or (default JUndefined (props !! "expandedData")) (JObj ∅) in
  match member expandedData "originId" with
  | Rejected e => Rejected e
  | Fulfilled originId =>
      if truthy originId
      then Fulfilled {| component := OriginExpanded; element_props := props |}
      else
        if truthy (default JUndefined (props !! "expanded"))
        then Fulfilled {| component := DappsExpanded; element_props := props |}
        else Fulfilled {| component := DappsPreview; element_props := props |}
  end.

(* ===================================================================== *)
(** ** Vocabulary of the specification                                    *)
(* ===================================================================== *)

(** [n] copies of ['/']. *)
Fixpoint slashes (n : nat) : string :=
  match n with
  | O => ""
  | S k => String "/" (slashes k)
  end.

(** [u] is an allow-listed entry, a path below one, or a release-tag page. *)
Definition allow_listed (u : string) : Prop :=
  (∃ entry, In entry externalWhitelist ∧
            (u = entry ∨ ∃ rest, u = entry +:+ "/" +:+ rest))
  ∨ (∃ rest, u = "https://github.com/floating/frame/releases/tag" +:+ rest)
  ∨ (∃ rest, u = "https://github.com/frame-labs/frame-canary/releases/tag" +:+ rest).

(** The existence probe of a URL "tested positive". *)
Definition probe_positive (p : Platform) (url : string) : bool :=
  match urlExists url p with
  | (_, Fulfilled b) => b
  | (_, Rejected _) => false
  end.

(** The candidate the specification selects when a token id is given:
    the NFT path, then the token path, then the address fallback. *)
Definition first_positive (p : Platform) (explorer address tokenId : string)
  : string :=
  let nftPath := explorer +:+ "/nft/" +:+ address +:+ "/" +:+ tokenId in
  let tokenPath := explorer +:+ "/token/" +:+ address in
  if probe_positive p nftPath then nftPath
  else if probe_positive p tokenPath then tokenPath
  else explorer +:+ "/address/" +:+ address.

(** The configured explorer of the chain of a request. *)
Definition configured_explorer (p : Platform) (r : OpenExplorer)
  : option string :=
  store_explorer p (chain_type (chain r)) (chain_id (chain r)).

(** The mandatory part of the web preferences of a surface. *)
Definition secure_preferences (options : gmap string jsval) : Prop :=
  ∃ prefs : gmap string jsval,
    options !! "webPreferences" = Some (JObj prefs)
    ∧ prefs !! "contextIsolation" = Some (JBool true)
    ∧ prefs !! "webviewTag" = Some (JBool false)
    ∧ prefs !! "sandbox" = Some (JBool true)
    ∧ prefs !! "nodeIntegration" = Some (JBool false).

(** The value a list of explicit properties gives to [k], if any: the
    last one listed wins. *)
Fixpoint last_binding (k : string) (kvs : list (string * jsval))
  : option jsval :=
  match kvs with
  | [] => None
  | (k', v) :: rest =>
      match last_binding k rest with
      | Some w => Some w
      | None => if (k' =? k)%string then Some v else None
      end
  end.

(** Every event delivered under [name] ends up prevented. *)
Definition always_prevented (name : string) (wc : WebContents) : Prop :=
  ∀ (e : Event) (p : Platform),
    ∃ t e', emit name wc e p = (t, Fulfilled e') ∧ defaultPrevented e' = true.

Definition navigation_blocked (wc : WebContents) : Prop :=
  always_prevented "will-navigate" wc
  ∧ always_prevented "will-attach-webview" wc
  ∧ ∀ url, window_open_request wc url = Some {| action := "deny" |}.

(** [props.expandedData] carries a truthy [originId]. *)
Definition carries_origin (props : gmap string jsval) : Prop :=
  ∃ (fields : gmap string jsval) (v : jsval),
    props !! "expandedData" = Some (JObj fields)
    ∧ fields !! "originId" = Some v
    ∧ truthy v = true.

(** Concrete platforms used to evaluate the code on examples. *)
Definition offline : Platform :=
  {| store_explorer := fun _ _ => Some "https://ex.com/";
     fetch_head := fun _ => Rejected (TypeError "fetch failed");
     process_platform := "linux";
     BUNDLE_LOCATION := "/opt/frame";
     path_resolve := fun segs => String.concat "/" segs;
     os_process_id := 4242 |}.

Definition unconfigured : Platform :=
  {| store_explorer := fun _ _ => None;
     fetch_head := fun _ => Rejected (TypeError "fetch failed");
     process_platform := "linux";
     BUNDLE_LOCATION := "/opt/frame";
     path_resolve := fun segs => String.concat "/" segs;
     os_process_id := 4242 |}.

Definition only_slashes : Platform :=
  {| store_explorer := fun _ _ => Some "/";
     fetch_head := fun _ => Rejected (TypeError "fetch failed");
     process_platform := "linux";
     BUNDLE_LOCATION := "/opt/frame";
     path_resolve := fun segs => String.concat "/" segs;
     os_process_id := 4242 |}.

Definition mainnet : Chain := {| chain_id := 1; chain_type := "ethereum" |}.

(** Concrete requests. *)
Definition tx_without_hash : OpenExplorer :=
  {| chain := mainnet; type := ExplorerType.tx;
     hash := None; address := None; tokenId := None |}.

Definition nft_request : OpenExplorer :=
  {| chain := mainnet; type := ExplorerType.token;
     hash := None; address := Some "0xabc"; tokenId := Some "7" |}.

Definition tx_request : OpenExplorer :=
  {| chain := mainnet; type := ExplorerType.tx;
     hash := Some "0xfeed"; address := None; tokenId := None |}.

Definition tx_empty_hash : OpenExplorer :=
  {| chain := mainnet; type := ExplorerType.tx;
     hash := Some ""; address := None; tokenId := None |}.

Definition address_request : OpenExplorer :=
  {| chain := mainnet; type := ExplorerType.address;
     hash := None; address := Some "0xabc"; tokenId := None |}.

Definition token_request : OpenExplorer :=
  {| chain := mainnet; type := ExplorerType.token;
     hash := None; address := Some "0xabc"; tokenId := None |}.

(** *** Reading a trace *)

(** The URLs handed to [shell.openExternal], in order. *)
Definition opened_of (t : list effect) : list string :=
  omap (fun e => match e with ShellOpenExternal u => Some u | _ => None end) t.

(** The requests handed to [fetch], in order: URL, method, redirect mode. *)
Definition requests_of (t : list effect) : list (string * string * string) :=
  omap (fun e => match e with
                 | FetchRequest u m r => Some (u, m, r)
                 | _ => None
                 end) t.

(** *** Reading a request and a surface *)

(** The explorer base [openBlockExplorer] works with (line 173): the
    configured string, or [''] when there is none, without its trailing
    ['/']. *)
Definition explorer_of (p : Platform) (r : OpenExplorer) : string :=
  replace_trailing_slashes (or_str (configured_explorer p r) "").

(** The same platform with another configured explorer for every chain. *)
Definition with_explorer (p : Platform) (configured : option string)
  : Platform :=
  {| store_explorer := fun _ _ => configured;
     fetch_head := fetch_head p;
     process_platform := process_platform p;
     BUNDLE_LOCATION := BUNDLE_LOCATION p;
     path_resolve := path_resolve p;
     os_process_id := os_process_id p |}.

(** The web preferences a surface was constructed with. *)
Definition preferences_of (options : gmap string jsval) : gmap string jsval :=
  match options !! "webPreferences" with
  | Some (JObj prefs) => prefs
  | _ => ∅
  end.

(** The keys each factory writes itself, after the spread. *)
Definition window_option_keys : list string :=
  [ "frame"; "acceptFirstMouse"; "transparent"; "show"; "skipTaskbar";
    "webPreferences" ].

Definition window_preference_keys : list string :=
  [ "preload"; "backgroundThrottling"; "contextIsolation"; "webviewTag";
    "sandbox"; "defaultEncoding"; "nodeIntegration"; "scrollBounce";
    "navigateOnDragDrop"; "disableBlinkFeatures" ].

Definition view_preference_keys : list string :=
  [ "contextIsolation"; "webviewTag"; "sandbox"; "defaultEncoding";
    "nodeIntegration"; "scrollBounce"; "navigateOnDragDrop";
    "disableBlinkFeatures"; "preload"; "partition" ].

Definition overlay_preference_keys : list string :=
  [ "contextIsolation"; "webviewTag"; "sandbox"; "defaultEncoding";
    "nodeIntegration"; "scrollBounce"; "navigateOnDragDrop";
    "disableBlinkFeatures"; "preload" ].

(** The event names a factory registers a listener for. *)
Definition registered_events : list string :=
  [ "did-finish-load"; "will-navigate"; "will-attach-webview" ].

(* ===================================================================== *)
(** ** Strings                                                            *)
(* ===================================================================== *)

Lemma append_nil (b : string) : "" +:+ b = b.
Proof. reflexivity. Qed.

Lemma append_cons (c : ascii) (a b : string) :
  String c a +:+ b = String c (a +:+ b).
Proof. reflexivity. Qed.

Create Rewrite HintDb strings.
#[global] Hint Rewrite append_nil append_cons : strings.

Lemma append_assoc' (a b c : string) : (a +:+ b) +:+ c = a +:+ (b +:+ c).
Proof.
  induction a as [|x a IH]; autorewrite with strings; [reflexivity | by rewrite IH].
Qed.

Lemma startsWith_append (p r : string) : startsWith (p +:+ r) p = true.
Proof.
  unfold startsWith. induction p as [|c p IH]; autorewrite with strings; simpl.
  - by destruct r.
  - destruct (ascii_dec c c); [exact IH | congruence].
Qed.

Lemma startsWith_inv (s p : string) :
  startsWith s p = true → ∃ r, s = p +:+ r.
Proof.
  unfold startsWith. revert s. induction p as [|c p IH]; intros s H.
  - by exists s.
  - destruct s as [|d s]; simpl in H; [discriminate|].
    destruct (ascii_dec c d) as [->|]; [|discriminate].
    destruct (IH s H) as [r ->]. by exists r.
Qed.

Lemma startsWith_spec (s p : string) :
  startsWith s p = true ↔ ∃ r, s = p +:+ r.
Proof.
  split; [apply startsWith_inv|]. intros [r ->]. apply startsWith_append.
Qed.

Lemma truthy_string_true (s : string) : truthy_string s = true ↔ s ≠ "".
Proof.
  unfold truthy_string. destruct (String.eqb_spec s ""); simpl; split; congruence.
Qed.

Lemma truthy_string_false (s : string) : truthy_string s = false ↔ s = "".
Proof.
  unfold truthy_string. destruct (String.eqb_spec s ""); simpl; split; congruence.
Qed.

(* ===================================================================== *)
(** ** The external navigation gate                                       *)
(* ===================================================================== *)

Lemma isWhitelistedHost_spec (u : string) :
  isWhitelistedHost u = true ↔
  ∃ entry, In entry externalWhitelist ∧
           (u = entry ∨ ∃ rest, u = entry +:+ "/" +:+ rest).
Proof.
  unfold isWhitelistedHost. rewrite existsb_exists.
  split; intros (entry & Hin & H); exists entry; split; try exact Hin.
  - apply orb_true_iff in H as [H|H].
    + left. by apply String.eqb_eq.
    + right. apply startsWith_inv in H as [rest ->].
      exists rest. apply append_assoc'.
  - apply orb_true_iff. destruct H as [->|[rest ->]].
    + left. apply String.eqb_refl.
    + right. rewrite <- append_assoc'. apply startsWith_append.
Qed.

Lemma isValidReleasePage_spec (u : string) :
  isValidReleasePage u = true ↔
  (∃ rest, u = "https://github.com/floating/frame/releases/tag" +:+ rest)
  ∨ (∃ rest, u = "https://github.com/frame-labs/frame-canary/releases/tag" +:+ rest).
Proof.
  unfold isValidReleasePage. rewrite orb_true_iff, !startsWith_spec. reflexivity.
Qed.

Lemma gate_spec (u : string) :
  isWhitelistedHost u || isValidReleasePage u = true ↔ allow_listed u.
Proof.
  unfold allow_listed.
  rewrite orb_true_iff, isWhitelistedHost_spec, isValidReleasePage_spec.
  reflexivity.
Qed.

Example openExternal_child_path :
  openExternal (Some "https://frame.sh/docs") offline
  = ([ShellOpenExternal "https://frame.sh/docs"], Fulfilled tt).
Proof. reflexivity. Qed.

Example openExternal_foreign_host :
  openExternal (Some "https://evil.example") offline = ([], Fulfilled tt).
Proof. reflexivity. Qed.

Example openExternal_lookalike_host :
  openExternal (Some "https://frame.sh.evil.example") offline = ([], Fulfilled tt).
Proof. reflexivity. Qed.

Example openExternal_default_argument :
  openExternal None offline = ([], Fulfilled tt).
Proof. reflexivity. Qed.

(** C1.  For every URL [u], [openExternal u] performs the external-open
    call (once, on [u]) exactly when [u] equals one of the thirteen
    allow-list entries, or starts with an entry followed by ['/'], or
    starts with one of the two release-tag prefixes; for every other [u]
    it performs no effect at all (no open, no log) and raises nothing. *)
Theorem openExternal_gate (u : string) (p : Platform) :
  length externalWhitelist = 13%nat
  ∧ ((allow_listed u
      ∧ openExternal (Some u) p = ([ShellOpenExternal u], Fulfilled tt))
     ∨ (¬ allow_listed u
        ∧ openExternal (Some u) p = ([], Fulfilled tt))).
Proof.
  split; [reflexivity|].
  unfold openExternal; simpl.
  destruct (isWhitelistedHost u || isValidReleasePage u) eqn:E.
  - left. split; [by apply gate_spec | reflexivity].
  - right. split; [|reflexivity].
    intros H%gate_spec. congruence.
Qed.

(* ===================================================================== *)
(** ** The window factory                                                 *)
(* ===================================================================== *)

(** Explicit properties written after a spread replace what was spread. *)
Lemma spread_then_lookup (base : gmap string jsval)
      (kvs : list (string * jsval)) (k : string) :
  spread_then base kvs !! k
  = match last_binding k kvs with
    | Some v => Some v
    | None => base !! k
    end.
Proof.
  unfold spread_then. revert base.
  induction kvs as [|[k' v] rest IH]; intros base; simpl; [reflexivity|].
  rewrite IH. destruct (last_binding k rest); [reflexivity|].
  destruct (String.eqb_spec k' k) as [->|Hne].
  - apply lookup_insert_eq.
  - by apply lookup_insert_ne.
Qed.

(** A literal that lists [webPreferences] as a spread followed by the four
    mandatory flags has the secure profile, whatever was spread. *)
Lemma secure_preferences_literal
      (base prefs_base : gmap string jsval)
      (kvs prefs_kvs : list (string * jsval)) :
  last_binding "webPreferences" kvs
    = Some (JObj (spread_then prefs_base prefs_kvs)) →
  last_binding "contextIsolation" prefs_kvs = Some (JBool true) →
  last_binding "webviewTag" prefs_kvs = Some (JBool false) →
  last_binding "sandbox" prefs_kvs = Some (JBool true) →
  last_binding "nodeIntegration" prefs_kvs = Some (JBool false) →
  secure_preferences (spread_then base kvs).
Proof.
  intros Hw Hc Hv Hs Hn. exists (spread_then prefs_base prefs_kvs).
  rewrite !spread_then_lookup, Hw, Hc, Hv, Hs, Hn. done.
Qed.

(** The three registrations made by every factory block navigation,
    webview attachment and window opening, whatever was registered
    before under other names. *)
Lemma navigation_blocked_registered (wc : WebContents) :
  (∀ l, In l (listeners wc) →
        event_name l ≠ "will-navigate" ∧ event_name l ≠ "will-attach-webview") →
  navigation_blocked
    (setWindowOpenHandler (fun _ => {| action := "deny" |})
       (on "will-attach-webview" (fun e => ret (preventDefault e))
          (on "will-navigate" (fun e => ret (preventDefault e)) wc))).
Proof.
  intros Hother.
  assert (Hskip : ∀ name ls e p,
             (∀ l, In l ls → event_name l ≠ name) →
             deliver name ls e p = ([], Fulfilled e)).
  { intros name ls. induction ls as [|l ls IH]; intros e p Hls; [reflexivity|].
    simpl. destruct (String.eqb_spec (event_name l) name) as [Heq|_].
    - exfalso. eapply Hls; [by left | exact Heq].
    - apply IH. intros l' Hl'. apply Hls. by right. }
  assert (Happ : ∀ name ls1 ls2 e p,
             (∀ l, In l ls1 → event_name l ≠ name) →
             deliver name (ls1 ++ ls2) e p = deliver name ls2 e p).
  { intros name ls1 ls2. induction ls1 as [|l ls1 IH]; intros e p Hls; [reflexivity|].
    simpl. destruct (String.eqb_spec (event_name l) name) as [Heq|_].
    - exfalso. eapply Hls; [by left | exact Heq].
    - apply IH. intros l' Hl'. apply Hls. by right. }
  repeat split.
  - intros e p. unfold emit, setWindowOpenHandler, on; simpl.
    rewrite <- app_assoc, Happ by (intros l Hl; by apply Hother).
    by eexists _, _.
  - intros e p. unfold emit, setWindowOpenHandler, on; simpl.
    rewrite <- app_assoc, Happ by (intros l Hl; by apply Hother).
    by eexists _, _.
Qed.

Lemma createWindow_profile name opts webPreferences p :
  ∃ t bw, createWindow name opts webPreferences p = (t, Fulfilled bw)
          ∧ secure_preferences (window_options bw)
          ∧ navigation_blocked (window_webContents bw).
Proof.
  eexists _, _. split; [reflexivity|]. split.
  - by eapply secure_preferences_literal.
  - apply navigation_blocked_registered.
    intros l [<-|[]]. by split.
Qed.

Lemma createViewInstance_profile ens webPreferences p :
  ∃ t bv, createViewInstance ens webPreferences p = (t, Fulfilled bv)
          ∧ secure_preferences (view_options bv)
          ∧ navigation_blocked (view_webContents bv).
Proof.
  eexists _, _. split; [reflexivity|]. split.
  - by eapply secure_preferences_literal.
  - apply navigation_blocked_registered. intros l [].
Qed.

Lemma createOverlayInstance_profile url webPreferences p :
  ∃ t bv, createOverlayInstance url webPreferences p = (t, Fulfilled bv)
          ∧ secure_preferences (view_options bv)
          ∧ navigation_blocked (view_webContents bv).
Proof.
  eexists _, _. split; [reflexivity|]. split.
  - by eapply secure_preferences_literal.
  - apply navigation_blocked_registered. intros l [].
Qed.

(** A caller that tries to switch every mandatory flag the other way. *)
Example createWindow_hostile_overrides :
  let hostile : gmap string jsval :=
    {[ "contextIsolation" := JBool false; "webviewTag" := JBool true;
       "sandbox" := JBool false; "nodeIntegration" := JBool true ]} in
  ∃ t bw prefs,
    createWindow "main" (Some {[ "webPreferences" := JObj hostile ]})
                 (Some hostile) offline = (t, Fulfilled bw)
    ∧ window_options bw !! "webPreferences" = Some (JObj prefs)
    ∧ prefs !! "contextIsolation" = Some (JBool true)
    ∧ prefs !! "webviewTag" = Some (JBool false)
    ∧ prefs !! "sandbox" = Some (JBool true)
    ∧ prefs !! "nodeIntegration" = Some (JBool false)
    ∧ window_options bw !! "frame" = Some (JBool false).
Proof. eexists _, _, _. split; [reflexivity|]. by vm_compute. Qed.

(** C2.  Every surface returned by [createWindow], [createViewInstance]
    or [createOverlayInstance], for every caller-supplied [opts] and
    [webPreferences] (also ones that set the flags the other way), has
    effective web preferences with [contextIsolation] true, [webviewTag]
    false, [sandbox] true and [nodeIntegration] false, and has handlers
    registered that prevent every [will-navigate] event, prevent every
    [will-attach-webview] event and answer every window-open request
    with ['deny']. *)
Theorem factory_surfaces_locked_down
        (name : string) (ens url : option string)
        (opts webPreferences : option (gmap string jsval)) (p : Platform) :
  (∃ t bw, createWindow name opts webPreferences p = (t, Fulfilled bw)
           ∧ secure_preferences (window_options bw)
           ∧ navigation_blocked (window_webContents bw))
  ∧ (∃ t bv, createViewInstance ens webPreferences p = (t, Fulfilled bv)
             ∧ secure_preferences (view_options bv)
             ∧ navigation_blocked (view_webContents bv))
  ∧ (∃ t bv, createOverlayInstance url webPreferences p = (t, Fulfilled bv)
             ∧ secure_preferences (view_options bv)
             ∧ navigation_blocked (view_webContents bv)).
Proof.
  split; [apply createWindow_profile|].
  split; [apply createViewInstance_profile | apply createOverlayInstance_profile].
Qed.

(* ===================================================================== *)
(** ** The existence probe                                                *)
(* ===================================================================== *)

Lemma urlExists_eq (url : string) (p : Platform) :
  urlExists url p
  = match fetch_head p url with
    | Fulfilled response =>
        ([FetchRequest url "HEAD" "manual"],
         Fulfilled (negb (redirected response) && ok response))
    | Rejected error =>
        ([FetchRequest url "HEAD" "manual"; ConsoleLog error], Fulfilled false)
    end.
Proof.
  unfold urlExists, try_catch, bind, fetch, console_log, perform, ret.
  destruct (fetch_head p url); reflexivity.
Qed.

Lemma ok_success_range (r : Response) :
  ok r = true ↔ 200 <= status r <= 299.
Proof. unfold ok. rewrite andb_true_iff, !Z.leb_le. reflexivity. Qed.

(** C5.  [urlExists] issues one HEAD request with redirect-following
    disabled.  When the request completes, the result is [true] exactly
    when the response is not redirected and its status is in the success
    range.  When the request throws, whatever the exception, the error is
    logged, the result is [false], and nothing is propagated: the
    computation is fulfilled, not rejected. *)
Theorem urlExists_probe (url : string) (p : Platform) :
  match fetch_head p url with
  | Fulfilled response =>
      ∃ b, urlExists url p
           = ([FetchRequest url "HEAD" "manual"], Fulfilled b)
           ∧ (b = true ↔ redirected response = false
                          ∧ 200 <= status response <= 299)
  | Rejected error =>
      urlExists url p
      = ([FetchRequest url "HEAD" "manual"; ConsoleLog error], Fulfilled false)
  end.
Proof.
  rewrite urlExists_eq. destruct (fetch_head p url) as [r|e]; [|reflexivity].
  eexists. split; [reflexivity|].
  rewrite andb_true_iff, negb_true_iff, ok_success_range. reflexivity.
Qed.

Example urlExists_redirect_is_negative :
  urlExists "https://ex.com/nft/0xabc/7"
    {| store_explorer := fun _ _ => None;
       fetch_head := fun _ => Fulfilled {| redirected := true; status := 200 |};
       process_platform := "linux"; BUNDLE_LOCATION := "";
       path_resolve := fun _ => ""; os_process_id := 0 |}
  = ([FetchRequest "https://ex.com/nft/0xabc/7" "HEAD" "manual"], Fulfilled false).
Proof. reflexivity. Qed.

(* ===================================================================== *)
(** ** Token URL disambiguation                                           *)
(* ===================================================================== *)

Lemma probe_positive_eq (p : Platform) (url : string) :
  probe_positive p url
  = match fetch_head p url with
    | Fulfilled response => negb (redirected response) && ok response
    | Rejected _ => false
    end.
Proof.
  unfold probe_positive. rewrite urlExists_eq.
  destruct (fetch_head p url); reflexivity.
Qed.

Lemma getTokenUrl_no_id (explorer address : string) (tokenId : option string)
      (p : Platform) :
  truthy_str tokenId = false →
  getTokenUrl explorer address tokenId p
  = ([], Fulfilled (Some (explorer +:+ "/token/" +:+ address))).
Proof. intros H. unfold getTokenUrl. rewrite H. reflexivity. Qed.

Lemma getTokenUrl_with_id (explorer address t : string) (p : Platform) :
  t ≠ "" →
  getTokenUrl explorer address (Some t) p
  = ((urlExists (explorer +:+ "/nft/" +:+ address +:+ "/" +:+ t) p).1
       ++ (urlExists (explorer +:+ "/token/" +:+ address) p).1,
     Fulfilled (Some (first_positive p explorer address t))).
Proof.
  intros Ht%truthy_string_true.
  unfold getTokenUrl, first_positive, truthy_str. rewrite Ht. simpl negb.
  rewrite !probe_positive_eq.
  unfold bind, ret. simpl. rewrite !urlExists_eq. simpl interpolate.
  destruct (fetch_head p (explorer +:+ "/nft/" +:+ address +:+ "/" +:+ t))
    as [[r1 s1]|e1];
    destruct (fetch_head p (explorer +:+ "/token/" +:+ address))
    as [[r2 s2]|e2]; simpl;
    repeat match goal with
           | |- context [negb ?r && ok ?x] => destruct (negb r && ok x); simpl
           end; reflexivity.
Qed.

Lemma append_eq_empty (a b : string) : a +:+ b = "" → a = "" ∧ b = "".
Proof. destruct a; autorewrite with strings; [tauto | discriminate]. Qed.

Lemma append_path_nonempty (a : string) (c : ascii) (rest : string) :
  a +:+ String c rest ≠ "".
Proof. intros [_ H]%append_eq_empty. discriminate. Qed.

Example getTokenUrl_only_nft_exists :
  let net url :=
    if (url =? "https://ex.com/nft/0xabc/7")%string
    then Fulfilled {| redirected := false; status := 200 |}
    else Fulfilled {| redirected := false; status := 404 |} in
  getTokenUrl "https://ex.com" "0xabc" (Some "7")
    {| store_explorer := fun _ _ => None; fetch_head := net;
       process_platform := "linux"; BUNDLE_LOCATION := "";
       path_resolve := fun _ => ""; os_process_id := 0 |}
  = ([FetchRequest "https://ex.com/nft/0xabc/7" "HEAD" "manual";
      FetchRequest "https://ex.com/token/0xabc" "HEAD" "manual"],
     Fulfilled (Some "https://ex.com/nft/0xabc/7")).
Proof. reflexivity. Qed.

Example getTokenUrl_only_token_exists :
  let net url :=
    if (url =? "https://ex.com/token/0xabc")%string
    then Fulfilled {| redirected := false; status := 204 |}
    else Rejected (TypeError "fetch failed") in
  getTokenUrl "https://ex.com" "0xabc" (Some "7")
    {| store_explorer := fun _ _ => None; fetch_head := net;
       process_platform := "linux"; BUNDLE_LOCATION := "";
       path_resolve := fun _ => ""; os_process_id := 0 |}
  = ([FetchRequest "https://ex.com/nft/0xabc/7" "HEAD" "manual";
      ConsoleLog (TypeError "fetch failed");
      FetchRequest "https://ex.com/token/0xabc" "HEAD" "manual"],
     Fulfilled (Some "https://ex.com/token/0xabc")).
Proof. reflexivity. Qed.

Example getTokenUrl_neither_exists :
  (getTokenUrl "https://ex.com" "0xabc" (Some "7") offline).2
  = Fulfilled (Some "https://ex.com/address/0xabc").
Proof. reflexivity. Qed.

(** C3 (as amended).  For every explorer base URL, address and non-empty
    [tokenId], [getTokenUrl] probes the NFT path and the token path and
    returns the first of the two, in that order, whose probe tested
    positive: the NFT path if it tested positive (also when both did),
    else the token path if it tested positive, else [base/address/address]. *)
Theorem getTokenUrl_first_positive
        (explorer address t : string) (p : Platform) :
  t ≠ "" →
  let nftPath := explorer +:+ "/nft/" +:+ address +:+ "/" +:+ t in
  let tokenPath := explorer +:+ "/token/" +:+ address in
  ∃ trace,
    getTokenUrl explorer address (Some t) p
    = (trace,
       Fulfilled (Some (if probe_positive p nftPath then nftPath
                        else if probe_positive p tokenPath then tokenPath
                        else explorer +:+ "/address/" +:+ address))).
Proof.
  intros Ht nftPath tokenPath. eexists.
  rewrite getTokenUrl_with_id by exact Ht. reflexivity.
Qed.

Lemma getTokenUrl_first_positive_witness :
  "7" ≠ ""
  ∧ ∃ trace,
      getTokenUrl "https://ex.com" "0xabc" (Some "7") offline
      = (trace,
         Fulfilled
           (Some (if probe_positive offline "https://ex.com/nft/0xabc/7"
                  then "https://ex.com/nft/0xabc/7"
                  else if probe_positive offline "https://ex.com/token/0xabc"
                       then "https://ex.com/token/0xabc"
                       else "https://ex.com/address/0xabc"))).
Proof.
  split; [discriminate|].
  apply (getTokenUrl_first_positive "https://ex.com" "0xabc" "7" offline).
  discriminate.
Defined.

(** A [tokenId] that is present but empty is treated as absent: no probe
    is made and the token path is returned, although neither candidate
    tested positive. *)
Lemma getTokenUrl_empty_tokenId :
  getTokenUrl "https://ex.com" "0xabc" (Some "") offline
  = ([], Fulfilled (Some "https://ex.com/token/0xabc"))
  ∧ probe_positive offline "https://ex.com/nft/0xabc/" = false
  ∧ probe_positive offline "https://ex.com/token/0xabc" = false
  ∧ ¬ ∃ trace,
        getTokenUrl "https://ex.com" "0xabc" (Some "") offline
        = (trace,
           Fulfilled
             (Some (if probe_positive offline "https://ex.com/nft/0xabc/"
                    then "https://ex.com/nft/0xabc/"
                    else if probe_positive offline "https://ex.com/token/0xabc"
                         then "https://ex.com/token/0xabc"
                         else "https://ex.com/address/0xabc"))).
Proof.
  repeat split. intros [trace H]. vm_compute in H. discriminate.
Qed.

(** C4.  Called with no [tokenId], [getTokenUrl] returns exactly
    [base/token/address] and performs no effect: in particular it issues
    no network request. *)
Theorem getTokenUrl_without_tokenId
        (explorer address : string) (p : Platform) :
  getTokenUrl explorer address None p
  = ([], Fulfilled (Some (explorer +:+ "/token/" +:+ address)))
  ∧ ∀ url method redirect,
      ¬ In (FetchRequest url method redirect)
           (getTokenUrl explorer address None p).1.
Proof.
  rewrite getTokenUrl_no_id by reflexivity.
  split; [reflexivity|]. intros url method redirect [].
Qed.

(** A path appended to the explorer base is non-empty and starts with it. *)
Ltac below_explorer :=
  split; [apply append_path_nonempty|]; split; [apply startsWith_append|].

(** C10.  Whatever the probes answer, [getTokenUrl] returns a string; it
    is non-empty, it starts with the explorer base it was given, and it is
    [base/nft/address/tokenId] (only with a token id), [base/token/address]
    or [base/address/address]. *)
Theorem getTokenUrl_shape
        (explorer address : string) (tokenId : option string) (p : Platform) :
  ∃ trace url,
    getTokenUrl explorer address tokenId p = (trace, Fulfilled (Some url))
    ∧ url ≠ ""
    ∧ startsWith url explorer = true
    ∧ ((∃ t, tokenId = Some t
             ∧ url = explorer +:+ "/nft/" +:+ address +:+ "/" +:+ t)
       ∨ url = explorer +:+ "/token/" +:+ address
       ∨ url = explorer +:+ "/address/" +:+ address).
Proof.
  destruct (truthy_str tokenId) eqn:E.
  - destruct tokenId as [t|]; [|discriminate].
    apply truthy_string_true in E.
    rewrite (getTokenUrl_with_id explorer address t p E).
    eexists _, _. split; [reflexivity|]. unfold first_positive.
    destruct (probe_positive p _); [|destruct (probe_positive p _)];
      below_explorer.
    + left. by exists t.
    + right. by left.
    + right. by right.
  - rewrite (getTokenUrl_no_id explorer address tokenId p E).
    eexists _, _. split; [reflexivity|]. below_explorer. right. by left.
Qed.

(* ===================================================================== *)
(** ** Stripping trailing slashes                                         *)
(* ===================================================================== *)

Lemma all_slashes_spec (s : string) :
  all_slashes s = true ↔ s = slashes (String.length s).
Proof.
  induction s as [|c s IH]; simpl; [done|].
  rewrite andb_true_iff, IH. split.
  - intros [Hc Hs]. apply Ascii.eqb_eq in Hc. subst c. by rewrite <- Hs.
  - intros H. injection H as -> Hs. by rewrite Ascii.eqb_refl.
Qed.

Lemma all_slashes_slashes (k : nat) : all_slashes (slashes k) = true.
Proof. induction k; simpl; [done | by rewrite IHk]. Qed.

(** The result is the input without its maximal run of trailing ['/']. *)
Lemma replace_trailing_slashes_spec (s : string) :
  (∃ k, s = replace_trailing_slashes s +:+ slashes k)
  ∧ (∀ r, replace_trailing_slashes s ≠ r +:+ "/").
Proof.
  induction s as [|c s [[k Hk] Hend]]; simpl.
  - split; [by exists 0%nat|]. intros r [_ H]%eq_sym%append_eq_empty. discriminate.
  - destruct (Ascii.eqb c "/" && all_slashes s) eqn:E.
    + split.
      * apply andb_true_iff in E as [Hc Hs]. apply Ascii.eqb_eq in Hc. subst c.
        apply all_slashes_spec in Hs. exists (S (String.length s)). simpl.
        by rewrite <- Hs.
      * intros r [_ H]%eq_sym%append_eq_empty. discriminate.
    + split.
      * exists k. autorewrite with strings. by rewrite <- Hk.
      * intros [|c' r]; autorewrite with strings; intros H.
        -- injection H as -> Hr. rewrite Hr in Hk. autorewrite with strings in Hk.
           rewrite Hk, all_slashes_slashes in E. discriminate.
        -- injection H as _ Hr. by apply (Hend r).
Qed.

Example replace_trailing_slashes_example :
  replace_trailing_slashes "https://ex.com///" = "https://ex.com"
  ∧ replace_trailing_slashes "https://ex.com/a/" = "https://ex.com/a"
  ∧ replace_trailing_slashes "///" = "".
Proof. repeat split. Qed.

(* ===================================================================== *)
(** ** Opening the block explorer                                         *)
(* ===================================================================== *)

Lemma or_str_empty (o : option string) :
  or_str o "" = default "" o.
Proof.
  destruct o as [s|]; [|reflexivity]. simpl.
  destruct (truthy_string s) eqn:E; [reflexivity|].
  by apply truthy_string_false in E.
Qed.

(** No explorer after normalisation: nothing happens. *)
Lemma openBlockExplorer_no_explorer (r : OpenExplorer) (p : Platform) :
  replace_trailing_slashes (default "" (configured_explorer p r)) = "" →
  openBlockExplorer r p = ([], Fulfilled tt).
Proof.
  destruct r as [c ty h a tid]. unfold configured_explorer; simpl. intros H.
  unfold openBlockExplorer, bind, ask. simpl.
  rewrite or_str_empty, H. reflexivity.
Qed.

(** An explorer is configured: one external-open call on the resolved URL,
    or on the bare explorer when the format yields nothing. *)
Lemma openBlockExplorer_explorer (r : OpenExplorer) (p : Platform) :
  let explorer :=
    replace_trailing_slashes (default "" (configured_explorer p r)) in
  explorer ≠ "" →
  openBlockExplorer r p
  = match type r with
    | ExplorerType.tx =>
        ([ShellOpenExternal
            (or_str (match hash r with
                     | Some h => if truthy_string h
                                 then Some (explorer +:+ "/tx/" +:+ h) else hash r
                     | None => None
                     end) explorer)],
         Fulfilled tt)
    | ExplorerType.address =>
        ([ShellOpenExternal
            (or_str (match address r with
                     | Some a => if truthy_string a
                                 then Some (explorer +:+ "/address/" +:+ a)
                                 else address r
                     | None => None
                     end) explorer)],
         Fulfilled tt)
    | ExplorerType.token =>
        match address r with
        | Some a =>
            if truthy_string a
            then
              match getTokenUrl explorer a (tokenId r) p with
              | (t, Fulfilled u) =>
                  (t ++ [ShellOpenExternal (or_str u explorer)], Fulfilled tt)
              | (t, Rejected e) => (t, Rejected e)
              end
            else ([ShellOpenExternal explorer], Fulfilled tt)
        | None => ([ShellOpenExternal explorer], Fulfilled tt)
        end
    end.
Proof.
  destruct r as [c ty h a tid]. unfold configured_explorer; simpl.
  intros H%truthy_string_true.
  unfold openBlockExplorer, bind, ask. simpl.
  rewrite or_str_empty, H. simpl.
  destruct ty; simpl.
  - destruct h as [h|]; simpl; [destruct (truthy_string h)|]; reflexivity.
  - destruct a as [a|]; simpl; [destruct (truthy_string a)|]; reflexivity.
  - destruct a as [a|]; simpl; [destruct (truthy_string a) eqn:Ea|]; simpl.
    + destruct (getTokenUrl _ a tid p) as [t [u|e]]; reflexivity.
    + apply truthy_string_false in Ea. subst a. reflexivity.
    + reflexivity.
Qed.

(** C6.  When the configuration lookup for the chain of the request yields
    an absent or an empty string, [openBlockExplorer] returns having done
    nothing: no external-open call, no network request, no log, and no
    exception. *)
Theorem openBlockExplorer_unconfigured (r : OpenExplorer) (p : Platform) :
  configured_explorer p r = None ∨ configured_explorer p r = Some "" →
  openBlockExplorer r p = ([], Fulfilled tt).
Proof.
  intros [H|H]; apply openBlockExplorer_no_explorer; by rewrite H.
Qed.

Lemma openBlockExplorer_unconfigured_witness :
  (configured_explorer unconfigured nft_request = None
   ∨ configured_explorer unconfigured nft_request = Some "")
  ∧ openBlockExplorer nft_request unconfigured = ([], Fulfilled tt).
Proof.
  split; [left; reflexivity|].
  apply (openBlockExplorer_unconfigured nft_request unconfigured).
  left; reflexivity.
Defined.

Example openBlockExplorer_tx :
  openBlockExplorer
    {| chain := mainnet; type := ExplorerType.tx;
       hash := Some "0xfeed"; address := None; tokenId := None |} offline
  = ([ShellOpenExternal "https://ex.com/tx/0xfeed"], Fulfilled tt).
Proof. reflexivity. Qed.

Example openBlockExplorer_tx_without_hash :
  openBlockExplorer tx_without_hash offline
  = ([ShellOpenExternal "https://ex.com"], Fulfilled tt).
Proof. reflexivity. Qed.

(** A configured explorer made only of ['/'] is non-empty, yet nothing is
    opened: the emptiness test comes after the trailing slashes are
    stripped. *)
Lemma openBlockExplorer_slash_only_explorer :
  configured_explorer only_slashes tx_without_hash = Some "/"
  ∧ "/" ≠ ""
  ∧ openBlockExplorer tx_without_hash only_slashes = ([], Fulfilled tt)
  ∧ openBlockExplorer tx_without_hash only_slashes
    ≠ ([ShellOpenExternal (replace_trailing_slashes "/")], Fulfilled tt).
Proof. repeat split; discriminate. Qed.

(** C7 (as amended).  For a request of type ['tx'] with no hash, or of
    type ['address'] or ['token'] with no address, on a chain whose
    configured explorer URL is still non-empty once its trailing ['/'] are
    stripped, [openBlockExplorer] performs exactly one effect: it opens
    the configured URL without its trailing ['/'] characters. *)
Theorem openBlockExplorer_missing_field
        (r : OpenExplorer) (p : Platform) (configured : string) :
  configured_explorer p r = Some configured →
  replace_trailing_slashes configured ≠ "" →
  (type r = ExplorerType.tx ∧ hash r = None)
  ∨ (type r = ExplorerType.address ∧ address r = None)
  ∨ (type r = ExplorerType.token ∧ address r = None) →
  ∃ base k,
    configured = base +:+ slashes k
    ∧ (∀ x, base ≠ x +:+ "/")
    ∧ openBlockExplorer r p = ([ShellOpenExternal base], Fulfilled tt).
Proof.
  intros Hc Hne Hfield.
  destruct (replace_trailing_slashes_spec configured) as [[k Hk] Hend].
  exists (replace_trailing_slashes configured), k.
  split; [exact Hk|]. split; [exact Hend|].
  pose proof (openBlockExplorer_explorer r p) as H. simpl in H.
  rewrite Hc in H. simpl in H. rewrite (H Hne).
  destruct Hfield as [[-> ->]|[[-> ->]|[-> ->]]]; reflexivity.
Qed.

Lemma openBlockExplorer_missing_field_witness :
  configured_explorer offline tx_without_hash = Some "https://ex.com/"
  ∧ replace_trailing_slashes "https://ex.com/" ≠ ""
  ∧ (type tx_without_hash = ExplorerType.tx ∧ hash tx_without_hash = None)
  ∧ ∃ base k,
      "https://ex.com/" = base +:+ slashes k
      ∧ (∀ x, base ≠ x +:+ "/")
      ∧ openBlockExplorer tx_without_hash offline
        = ([ShellOpenExternal base], Fulfilled tt).
Proof.
  split; [reflexivity|]. split; [discriminate|]. split; [split; reflexivity|].
  apply (openBlockExplorer_missing_field tx_without_hash offline "https://ex.com/").
  - reflexivity.
  - discriminate.
  - left. split; reflexivity.
Defined.

(** C8.  For every request, every URL and every platform behaviour (the
    HEAD probes may fail, request fields may be missing, the configuration
    lookup may yield nothing), [openBlockExplorer] and [openExternal]
    settle fulfilled: no exception reaches the caller. *)
Theorem no_exception_escapes
        (r : OpenExplorer) (u : option string) (p : Platform) :
  (∃ trace, openBlockExplorer r p = (trace, Fulfilled tt))
  ∧ (∃ trace, openExternal u p = (trace, Fulfilled tt)).
Proof.
  split.
  - destruct (String.eqb_spec
                (replace_trailing_slashes (default "" (configured_explorer p r)))
                "") as [E|E].
    + rewrite (openBlockExplorer_no_explorer r p E). eauto.
    + rewrite (openBlockExplorer_explorer r p E).
      destruct (type r); eauto.
      destruct (address r) as [a|]; eauto.
      destruct (truthy_string a); eauto.
      destruct (getTokenUrl_shape
                  (replace_trailing_slashes (default "" (configured_explorer p r)))
                  a (tokenId r) p) as (t & url & -> & _).
      eauto.
  - unfold openExternal.
    destruct (isWhitelistedHost (default "" u) || isValidReleasePage (default "" u));
      eauto.
Qed.

Example openBlockExplorer_token_offline :
  openBlockExplorer nft_request offline
  = ([FetchRequest "https://ex.com/nft/0xabc/7" "HEAD" "manual";
      ConsoleLog (TypeError "fetch failed");
      FetchRequest "https://ex.com/token/0xabc" "HEAD" "manual";
      ConsoleLog (TypeError "fetch failed");
      ShellOpenExternal "https://ex.com/address/0xabc"], Fulfilled tt).
Proof. reflexivity. Qed.

(* ===================================================================== *)
(** ** The Dapps view selector                                            *)
(* ===================================================================== *)

(** The data read from the props holds no origin. *)
Ltac no_origin :=
  eexists; split; [reflexivity|]; simpl;
  split; [discriminate | by intros (? & ? & ? & _)].

Lemma originId_read (props : gmap string jsval) :
  ∃ v, member (or (default JUndefined (props !! "expandedData")) (JObj ∅))
              "originId" = Fulfilled v
       ∧ (truthy v = true ↔ carries_origin props).
Proof.
  unfold carries_origin, or.
  destruct (props !! "expandedData") as [ed|] eqn:E; simpl.
  - destruct ed as [| |b|n| |s|fields]; simpl; try no_origin.
    + destruct b; simpl; no_origin.
    + destruct (negb (n =? 0)); simpl; no_origin.
    + destruct (negb (s =? "")%string); simpl; no_origin.
    + eexists. split; [reflexivity|]. split.
      * intros H. destruct (fields !! "originId") as [v|] eqn:Ev; [|discriminate].
        by exists fields, v.
      * intros (f & v & [= <-] & Hv & Ht). by rewrite Hv.
  - rewrite lookup_empty. no_origin.
Qed.

Example Dapps_render_origin :
  component <$> (match Dapps_render
                         {[ "expandedData" := JObj {[ "originId" := JStr "x" ]} ]}
                 with Fulfilled el => Some el | Rejected _ => None end)
  = Some OriginExpanded.
Proof. by vm_compute. Qed.

Example Dapps_render_expanded :
  component <$> (match Dapps_render {[ "expanded" := JBool true ]}
                 with Fulfilled el => Some el | Rejected _ => None end)
  = Some DappsExpanded.
Proof. by vm_compute. Qed.

Example Dapps_render_preview :
  component <$> (match Dapps_render ∅
                 with Fulfilled el => Some el | Rejected _ => None end)
  = Some DappsPreview.
Proof. by vm_compute. Qed.

(** C9.  For every props object, [Dapps.render] returns one element,
    handed the props unchanged, whose component is a function of the props
    alone: the origin-scoped variant exactly when [props.expandedData]
    carries a truthy [originId]; otherwise the expanded variant exactly
    when [props.expanded] is truthy; otherwise (also when [expandedData]
    is absent) the preview variant. *)
Theorem Dapps_render_selects (props : gmap string jsval) :
  ∃ c, Dapps_render props
       = Fulfilled {| component := c; element_props := props |}
       ∧ (c = OriginExpanded ↔ carries_origin props)
       ∧ (c = DappsExpanded ↔
            ¬ carries_origin props
            ∧ truthy (default JUndefined (props !! "expanded")) = true)
       ∧ (c = DappsPreview ↔
            ¬ carries_origin props
            ∧ truthy (default JUndefined (props !! "expanded")) = false).
Proof.
  unfold Dapps_render.
  destruct (originId_read props) as (v & -> & Hv).
  destruct (truthy v) eqn:Ev.
  - exists OriginExpanded. split; [reflexivity|].
    assert (carries_origin props) by by apply Hv.
    repeat split; try done; intros []; done.
  - assert (¬ carries_origin props) by (intros ?%Hv; discriminate).
    destruct (truthy (default JUndefined (props !! "expanded"))) eqn:Ex.
    + exists DappsExpanded. split; [reflexivity|].
      repeat split; try done; intros []; done.
    + exists DappsPreview. split; [reflexivity|].
      repeat split; try done; intros []; done.
Qed.

(* ===================================================================== *)
(** * Further properties of the same code                                 *)
(* ===================================================================== *)

(* ===================================================================== *)
(** ** Explorer requests, path by path                                    *)
(* ===================================================================== *)

Lemma explorer_of_eq (p : Platform) (r : OpenExplorer) :
  explorer_of p r
  = replace_trailing_slashes (default "" (configured_explorer p r)).
Proof. unfold explorer_of. by rewrite or_str_empty. Qed.

Lemma or_str_nonempty (s d : string) : s ≠ "" → or_str (Some s) d = s.
Proof. intros H%truthy_string_true. simpl. by rewrite H. Qed.

(** A path below the explorer is truthy. *)
Ltac path_is_truthy := rewrite or_str_nonempty by apply append_path_nonempty.

(** The explorer lemmas, phrased with [explorer_of]. *)
Lemma openBlockExplorer_configured (r : OpenExplorer) (p : Platform) :
  explorer_of p r ≠ "" →
  openBlockExplorer r p
  = match type r with
    | ExplorerType.tx =>
        ([ShellOpenExternal
            (or_str (match hash r with
                     | Some h => if truthy_string h
                                 then Some (explorer_of p r +:+ "/tx/" +:+ h)
                                 else hash r
                     | None => None
                     end) (explorer_of p r))],
         Fulfilled tt)
    | ExplorerType.address =>
        ([ShellOpenExternal
            (or_str (match address r with
                     | Some a => if truthy_string a
                                 then Some (explorer_of p r +:+ "/address/" +:+ a)
                                 else address r
                     | None => None
                     end) (explorer_of p r))],
         Fulfilled tt)
    | ExplorerType.token =>
        match address r with
        | Some a =>
            if truthy_string a
            then
              match getTokenUrl (explorer_of p r) a (tokenId r) p with
              | (t, Fulfilled u) =>
                  (t ++ [ShellOpenExternal (or_str u (explorer_of p r))],
                   Fulfilled tt)
              | (t, Rejected e) => (t, Rejected e)
              end
            else ([ShellOpenExternal (explorer_of p r)], Fulfilled tt)
        | None => ([ShellOpenExternal (explorer_of p r)], Fulfilled tt)
        end
    end.
Proof.
  rewrite explorer_of_eq. intros H. by rewrite (openBlockExplorer_explorer r p H).
Qed.

(** X1.  A ['tx'] request with a non-empty hash, on a chain whose explorer
    is non-empty once stripped, opens exactly [base/tx/hash]: one effect,
    no network request, whatever the address and token id fields hold. *)
Theorem openBlockExplorer_tx_with_hash
        (r : OpenExplorer) (p : Platform) (h : string) :
  type r = ExplorerType.tx →
  hash r = Some h →
  h ≠ "" →
  explorer_of p r ≠ "" →
  openBlockExplorer r p
  = ([ShellOpenExternal (explorer_of p r +:+ "/tx/" +:+ h)], Fulfilled tt).
Proof.
  intros Ht Hh Hne%truthy_string_true He.
  rewrite (openBlockExplorer_configured r p He), Ht, Hh, Hne.
  by path_is_truthy.
Qed.

Lemma openBlockExplorer_tx_with_hash_witness :
  type tx_request = ExplorerType.tx
  ∧ hash tx_request = Some "0xfeed"
  ∧ "0xfeed" ≠ ""
  ∧ explorer_of offline tx_request ≠ ""
  ∧ openBlockExplorer tx_request offline
    = ([ShellOpenExternal (explorer_of offline tx_request +:+ "/tx/" +:+ "0xfeed")],
       Fulfilled tt).
Proof.
  split; [reflexivity|]. split; [reflexivity|]. split; [discriminate|].
  split; [discriminate|].
  apply (openBlockExplorer_tx_with_hash tx_request offline "0xfeed");
    [reflexivity | reflexivity | discriminate | discriminate].
Defined.

(** X2.  An ['address'] request with a non-empty address, on a chain whose
    explorer is non-empty once stripped, opens exactly
    [base/address/address]: one effect, no network request. *)
Theorem openBlockExplorer_address_with_address
        (r : OpenExplorer) (p : Platform) (a : string) :
  type r = ExplorerType.address →
  address r = Some a →
  a ≠ "" →
  explorer_of p r ≠ "" →
  openBlockExplorer r p
  = ([ShellOpenExternal (explorer_of p r +:+ "/address/" +:+ a)], Fulfilled tt).
Proof.
  intros Ht Ha Hne%truthy_string_true He.
  rewrite (openBlockExplorer_configured r p He), Ht, Ha, Hne.
  by path_is_truthy.
Qed.

Lemma openBlockExplorer_address_with_address_witness :
  type address_request = ExplorerType.address
  ∧ address address_request = Some "0xabc"
  ∧ "0xabc" ≠ ""
  ∧ explorer_of offline address_request ≠ ""
  ∧ openBlockExplorer address_request offline
    = ([ShellOpenExternal
          (explorer_of offline address_request +:+ "/address/" +:+ "0xabc")],
       Fulfilled tt).
Proof.
  split; [reflexivity|]. split; [reflexivity|]. split; [discriminate|].
  split; [discriminate|].
  apply (openBlockExplorer_address_with_address address_request offline "0xabc");
    [reflexivity | reflexivity | discriminate | discriminate].
Defined.

(** X3.  A ['token'] request with a non-empty address and no token id (or
    an empty one) opens exactly [base/token/address] without probing:
    one effect, no network request. *)
Theorem openBlockExplorer_token_without_id
        (r : OpenExplorer) (p : Platform) (a : string) :
  type r = ExplorerType.token →
  address r = Some a →
  a ≠ "" →
  truthy_str (tokenId r) = false →
  explorer_of p r ≠ "" →
  openBlockExplorer r p
  = ([ShellOpenExternal (explorer_of p r +:+ "/token/" +:+ a)], Fulfilled tt).
Proof.
  intros Ht Ha Hne%truthy_string_true Hid He.
  rewrite (openBlockExplorer_configured r p He), Ht, Ha, Hne.
  rewrite (getTokenUrl_no_id _ _ _ _ Hid). cbv beta iota. rewrite app_nil_l.
  by path_is_truthy.
Qed.

Lemma openBlockExplorer_token_without_id_witness :
  type token_request = ExplorerType.token
  ∧ address token_request = Some "0xabc"
  ∧ "0xabc" ≠ ""
  ∧ truthy_str (tokenId token_request) = false
  ∧ explorer_of offline token_request ≠ ""
  ∧ openBlockExplorer token_request offline
    = ([ShellOpenExternal
          (explorer_of offline token_request +:+ "/token/" +:+ "0xabc")],
       Fulfilled tt).
Proof.
  split; [reflexivity|]. split; [reflexivity|]. split; [discriminate|].
  split; [reflexivity|]. split; [discriminate|].
  apply (openBlockExplorer_token_without_id token_request offline "0xabc");
    [reflexivity | reflexivity | discriminate | reflexivity | discriminate].
Defined.

(* ===================================================================== *)
(** ** What a resolution asks of the network and of the shell             *)
(* ===================================================================== *)

Lemma append_nil_r (a : string) : a +:+ "" = a.
Proof.
  induction a as [|x a IH]; autorewrite with strings; [reflexivity | by rewrite IH].
Qed.

Lemma startsWith_refl (s : string) : startsWith s s = true.
Proof. rewrite <- (append_nil_r s) at 1. apply startsWith_append. Qed.

Lemma opened_of_app (t1 t2 : list effect) :
  opened_of (t1 ++ t2) = opened_of t1 ++ opened_of t2.
Proof. apply omap_app. Qed.

Lemma requests_of_app (t1 t2 : list effect) :
  requests_of (t1 ++ t2) = requests_of t1 ++ requests_of t2.
Proof. apply omap_app. Qed.

Lemma urlExists_requests (url : string) (p : Platform) :
  requests_of (urlExists url p).1 = [(url, "HEAD", "manual")]
  ∧ opened_of (urlExists url p).1 = [].
Proof. rewrite urlExists_eq. by destruct (fetch_head p url). Qed.

(** The outcome of the disambiguation, by cases on the token id. *)
Lemma getTokenUrl_cases
      (explorer a : string) (tid : option string) (p : Platform) :
  (truthy_str tid = false
   ∧ getTokenUrl explorer a tid p
     = ([], Fulfilled (Some (explorer +:+ "/token/" +:+ a))))
  ∨ (∃ t, tid = Some t ∧ t ≠ ""
          ∧ getTokenUrl explorer a tid p
            = ((urlExists (explorer +:+ "/nft/" +:+ a +:+ "/" +:+ t) p).1
                 ++ (urlExists (explorer +:+ "/token/" +:+ a) p).1,
               Fulfilled (Some (first_positive p explorer a t)))).
Proof.
  destruct (truthy_str tid) eqn:E.
  - right. destruct tid as [t|]; [|discriminate].
    apply truthy_string_true in E. exists t.
    by rewrite (getTokenUrl_with_id explorer a t p E).
  - left. by rewrite (getTokenUrl_no_id explorer a tid p E).
Qed.

Lemma first_positive_below (p : Platform) (explorer a t : string) :
  first_positive p explorer a t ≠ ""
  ∧ startsWith (first_positive p explorer a t) explorer = true.
Proof.
  unfold first_positive.
  destruct (probe_positive p _); [|destruct (probe_positive p _)];
    (split; [apply append_path_nonempty | apply startsWith_append]).
Qed.

(** X4.  When the token id is non-empty, [getTokenUrl] always issues the
    same two requests, whatever they answer: HEAD with redirect mode
    ['manual'] to the NFT path and then to the token path (the token path
    is probed even if the NFT path exists).  It opens nothing itself. *)
Theorem getTokenUrl_probes_both
        (explorer a t : string) (p : Platform) :
  t ≠ "" →
  requests_of (getTokenUrl explorer a (Some t) p).1
  = [ (explorer +:+ "/nft/" +:+ a +:+ "/" +:+ t, "HEAD", "manual");
      (explorer +:+ "/token/" +:+ a, "HEAD", "manual") ]
  ∧ opened_of (getTokenUrl explorer a (Some t) p).1 = [].
Proof.
  intros Ht. rewrite (getTokenUrl_with_id explorer a t p Ht). simpl fst.
  rewrite requests_of_app, opened_of_app.
  destruct (urlExists_requests (explorer +:+ "/nft/" +:+ a +:+ "/" +:+ t) p)
    as [-> ->].
  destruct (urlExists_requests (explorer +:+ "/token/" +:+ a) p) as [-> ->].
  done.
Qed.

Lemma getTokenUrl_probes_both_witness :
  "7" ≠ ""
  ∧ requests_of (getTokenUrl "https://ex.com" "0xabc" (Some "7") offline).1
    = [ ("https://ex.com" +:+ "/nft/" +:+ "0xabc" +:+ "/" +:+ "7", "HEAD", "manual");
        ("https://ex.com" +:+ "/token/" +:+ "0xabc", "HEAD", "manual") ]
  ∧ opened_of (getTokenUrl "https://ex.com" "0xabc" (Some "7") offline).1 = [].
Proof.
  split; [discriminate|].
  apply (getTokenUrl_probes_both "https://ex.com" "0xabc" "7" offline).
  discriminate.
Defined.

(** X5.  A ['token'] request with a non-empty address and a non-empty
    token id, on a chain with an explorer, makes the two probes and then
    opens exactly one URL: the NFT path if its probe was positive, else
    the token path if its probe was positive, else [base/address/address]. *)
Theorem openBlockExplorer_token_with_id
        (r : OpenExplorer) (p : Platform) (a t : string) :
  type r = ExplorerType.token →
  address r = Some a → a ≠ "" →
  tokenId r = Some t → t ≠ "" →
  explorer_of p r ≠ "" →
  let explorer := explorer_of p r in
  let nftPath := explorer +:+ "/nft/" +:+ a +:+ "/" +:+ t in
  let tokenPath := explorer +:+ "/token/" +:+ a in
  ∃ trace,
    openBlockExplorer r p = (trace, Fulfilled tt)
    ∧ requests_of trace
      = [(nftPath, "HEAD", "manual"); (tokenPath, "HEAD", "manual")]
    ∧ opened_of trace
      = [ if probe_positive p nftPath then nftPath
          else if probe_positive p tokenPath then tokenPath
          else explorer +:+ "/address/" +:+ a ].
Proof.
  intros Hty Ha Hane%truthy_string_true Hid Ht He. cbv zeta.
  rewrite (openBlockExplorer_configured r p He), Hty, Ha, Hane, Hid.
  rewrite (getTokenUrl_with_id (explorer_of p r) a t p Ht).
  eexists. split; [reflexivity|].
  rewrite !requests_of_app, !opened_of_app.
  destruct (urlExists_requests
              (explorer_of p r +:+ "/nft/" +:+ a +:+ "/" +:+ t) p) as [-> ->].
  destruct (urlExists_requests (explorer_of p r +:+ "/token/" +:+ a) p)
    as [-> ->].
  split; [reflexivity|].
  rewrite or_str_nonempty by apply first_positive_below. reflexivity.
Qed.

Lemma openBlockExplorer_token_with_id_witness :
  type nft_request = ExplorerType.token
  ∧ address nft_request = Some "0xabc" ∧ "0xabc" ≠ ""
  ∧ tokenId nft_request = Some "7" ∧ "7" ≠ ""
  ∧ explorer_of offline nft_request ≠ ""
  ∧ ∃ trace,
      openBlockExplorer nft_request offline = (trace, Fulfilled tt)
      ∧ opened_of trace = ["https://ex.com/address/0xabc"].
Proof.
  split; [reflexivity|]. split; [reflexivity|]. split; [discriminate|].
  split; [reflexivity|]. split; [discriminate|]. split; [discriminate|].
  destruct (openBlockExplorer_token_with_id nft_request offline "0xabc" "7")
    as (trace & Hrun & _ & Hopen);
    [reflexivity | reflexivity | discriminate | reflexivity
    | discriminate | discriminate |].
  exists trace. split; [exact Hrun | exact Hopen].
Defined.

(** What is opened in the end is the resolved URL or the bare explorer;
    both start with the explorer. *)
Lemma or_str_below (u : option string) (explorer : string) :
  (∀ s, u = Some s → s ≠ "" → startsWith s explorer = true) →
  startsWith (or_str u explorer) explorer = true.
Proof.
  intros H. destruct u as [s|]; simpl; [|apply startsWith_refl].
  destruct (truthy_string s) eqn:E; [|apply startsWith_refl].
  apply H; [reflexivity | by apply truthy_string_true].
Qed.

(** X6.  Whatever the request and the platform, [openBlockExplorer]
    settles fulfilled, and either the chain has no explorer and nothing at
    all happens, or exactly one URL is opened and that URL starts with the
    (stripped) configured explorer of the chain: no request field can
    send the user elsewhere. *)
Theorem openBlockExplorer_opens_below_explorer
        (r : OpenExplorer) (p : Platform) :
  ∃ trace,
    openBlockExplorer r p = (trace, Fulfilled tt)
    ∧ ((explorer_of p r = "" ∧ trace = [])
       ∨ (explorer_of p r ≠ ""
          ∧ ∃ url, opened_of trace = [url]
                   ∧ startsWith url (explorer_of p r) = true)).
Proof.
  destruct (String.eqb_spec (explorer_of p r) "") as [E|E].
  - exists []. split; [|by left].
    apply openBlockExplorer_no_explorer. by rewrite <- explorer_of_eq.
  - rewrite (openBlockExplorer_configured r p E).
    destruct (type r).
    + eexists. split; [reflexivity|]. right. split; [exact E|].
      eexists. split; [reflexivity|]. apply or_str_below.
      intros s Hs Hne. destruct (hash r) as [h|]; [|discriminate].
      destruct (truthy_string h) eqn:Eh.
      * injection Hs as <-. apply startsWith_append.
      * injection Hs as <-. by apply truthy_string_false in Eh.
    + eexists. split; [reflexivity|]. right. split; [exact E|].
      eexists. split; [reflexivity|]. apply or_str_below.
      intros s Hs Hne. destruct (address r) as [a|]; [|discriminate].
      destruct (truthy_string a) eqn:Ea.
      * injection Hs as <-. apply startsWith_append.
      * injection Hs as <-. by apply truthy_string_false in Ea.
    + destruct (address r) as [a|];
        [destruct (truthy_string a)|];
        try (eexists; split; [reflexivity|]; right; split; [exact E|];
             eexists; split; [reflexivity | apply startsWith_refl]).
      destruct (getTokenUrl_cases (explorer_of p r) a (tokenId r) p)
        as [[_ ->]|(t & _ & Ht & ->)].
      * eexists. split; [reflexivity|]. right. split; [exact E|].
        eexists. split; [reflexivity|]. apply or_str_below.
        intros s [= <-] _. apply startsWith_append.
      * eexists. split; [reflexivity|]. right. split; [exact E|].
        eexists. split.
        -- rewrite !opened_of_app.
           destruct (urlExists_requests
                       (explorer_of p r +:+ "/nft/" +:+ a +:+ "/" +:+ t) p)
             as [_ ->].
           destruct (urlExists_requests (explorer_of p r +:+ "/token/" +:+ a) p)
             as [_ ->].
           reflexivity.
        -- apply or_str_below. intros s [= <-] _. apply first_positive_below.
Qed.

(** X7.  [openBlockExplorer] touches the network only for a ['token']
    request that carries both an address and a token id: for every other
    request ( ['tx'], ['address'], or a ['token'] request whose address or
    token id is missing or empty) it issues no request at all. *)
Theorem openBlockExplorer_network_only_for_nft
        (r : OpenExplorer) (p : Platform) :
  type r ≠ ExplorerType.token
  ∨ truthy_str (address r) = false
  ∨ truthy_str (tokenId r) = false →
  requests_of (openBlockExplorer r p).1 = [].
Proof.
  intros H.
  destruct (String.eqb_spec (explorer_of p r) "") as [E|E].
  { rewrite openBlockExplorer_no_explorer; [reflexivity|].
    by rewrite <- explorer_of_eq. }
  rewrite (openBlockExplorer_configured r p E).
  destruct (type r); [reflexivity | reflexivity |].
  destruct (address r) as [a|]; [|reflexivity]. simpl in H.
  destruct (truthy_string a); [|reflexivity].
  destruct H as [H|[H|H]]; [done | discriminate |].
  by rewrite (getTokenUrl_no_id _ _ _ _ H).
Qed.

Lemma openBlockExplorer_network_only_for_nft_witness :
  (type address_request ≠ ExplorerType.token
   ∨ truthy_str (address address_request) = false
   ∨ truthy_str (tokenId address_request) = false)
  ∧ requests_of (openBlockExplorer address_request offline).1 = [].
Proof.
  split; [left; discriminate|].
  apply (openBlockExplorer_network_only_for_nft address_request offline).
  left; discriminate.
Defined.

(** X8.  A hash or an address that is present but is the empty string is
    treated like a missing one: with an explorer configured, the request
    opens the bare explorer, not [base/tx/] or [base/address/]. *)
Theorem openBlockExplorer_empty_field (r : OpenExplorer) (p : Platform) :
  explorer_of p r ≠ "" →
  (type r = ExplorerType.tx ∧ hash r = Some "")
  ∨ (type r = ExplorerType.address ∧ address r = Some "")
  ∨ (type r = ExplorerType.token ∧ address r = Some "") →
  openBlockExplorer r p = ([ShellOpenExternal (explorer_of p r)], Fulfilled tt).
Proof.
  intros E H. rewrite (openBlockExplorer_configured r p E).
  destruct H as [[-> ->]|[[-> ->]|[-> ->]]]; reflexivity.
Qed.

Lemma openBlockExplorer_empty_field_witness :
  explorer_of offline tx_empty_hash ≠ ""
  ∧ (type tx_empty_hash = ExplorerType.tx ∧ hash tx_empty_hash = Some "")
  ∧ openBlockExplorer tx_empty_hash offline
    = ([ShellOpenExternal (explorer_of offline tx_empty_hash)], Fulfilled tt).
Proof.
  split; [discriminate|]. split; [split; reflexivity|].
  apply (openBlockExplorer_empty_field tx_empty_hash offline);
    [discriminate | left; split; reflexivity].
Defined.

(* ===================================================================== *)
(** ** Trailing slashes of the configured explorer                        *)
(* ===================================================================== *)

Lemma all_slashes_app (a b : string) :
  all_slashes (a +:+ b) = all_slashes a && all_slashes b.
Proof.
  induction a as [|c a IH]; autorewrite with strings; simpl; [reflexivity|].
  by rewrite IH, andb_assoc.
Qed.

Lemma replace_trailing_slashes_slashes (k : nat) :
  replace_trailing_slashes (slashes k) = "".
Proof. destruct k; simpl; [reflexivity|]. by rewrite all_slashes_slashes. Qed.

Lemma replace_trailing_slashes_more (c : string) (k : nat) :
  replace_trailing_slashes (c +:+ slashes k) = replace_trailing_slashes c.
Proof.
  induction c as [|x c IH]; autorewrite with strings.
  - apply replace_trailing_slashes_slashes.
  - simpl. rewrite all_slashes_app, all_slashes_slashes, andb_true_r, IH.
    reflexivity.
Qed.

(** The disambiguation reads nothing of the platform but the network. *)
Lemma getTokenUrl_network_only
      (explorer a : string) (tid : option string) (p q : Platform) :
  fetch_head p = fetch_head q →
  getTokenUrl explorer a tid p = getTokenUrl explorer a tid q.
Proof.
  intros H.
  assert (Hprobe : ∀ url, urlExists url p = urlExists url q).
  { intros url. by rewrite !urlExists_eq, H. }
  destruct (getTokenUrl_cases explorer a tid p) as [[E ->]|(t & -> & Ht & ->)].
  - by rewrite (getTokenUrl_no_id explorer a tid q E).
  - rewrite (getTokenUrl_with_id explorer a t q Ht).
    unfold first_positive, probe_positive. by rewrite !Hprobe.
Qed.

(** [openBlockExplorer] reads nothing of the platform but the network and
    the explorer of the chain. *)
Lemma openBlockExplorer_reads (r : OpenExplorer) (p q : Platform) :
  fetch_head p = fetch_head q →
  explorer_of p r = explorer_of q r →
  openBlockExplorer r p = openBlockExplorer r q.
Proof.
  intros Hnet Hex.
  destruct (String.eqb_spec (explorer_of q r) "") as [E|E].
  - rewrite !openBlockExplorer_no_explorer;
      [reflexivity | by rewrite <- explorer_of_eq
                   | by rewrite <- explorer_of_eq, Hex].
  - rewrite (openBlockExplorer_configured r q E).
    rewrite <- Hex in E. rewrite (openBlockExplorer_configured r p E), Hex.
    destruct (type r); try reflexivity.
    destruct (address r) as [a|]; [|reflexivity].
    destruct (truthy_string a); [|reflexivity].
    by rewrite (getTokenUrl_network_only _ a (tokenId r) p q Hnet).
Qed.

(** X9.  Trailing slashes of the configured explorer never matter: adding
    any number of ['/'] at the end of the configured string changes
    neither the URLs probed nor the URL opened, for any request. *)
Theorem openBlockExplorer_trailing_slashes
        (r : OpenExplorer) (p : Platform) (configured : string) (k : nat) :
  openBlockExplorer r (with_explorer p (Some (configured +:+ slashes k)))
  = openBlockExplorer r (with_explorer p (Some configured)).
Proof.
  apply openBlockExplorer_reads; [reflexivity|].
  rewrite !explorer_of_eq. apply replace_trailing_slashes_more.
Qed.

Example openBlockExplorer_trailing_slashes_example :
  openBlockExplorer tx_request (with_explorer offline (Some "https://ex.com///"))
  = ([ShellOpenExternal "https://ex.com/tx/0xfeed"], Fulfilled tt).
Proof. reflexivity. Qed.

(* ===================================================================== *)
(** ** More on the external navigation gate                               *)
(* ===================================================================== *)

Lemma openExternal_eq (u : string) (p : Platform) :
  openExternal (Some u) p
  = if isWhitelistedHost u || isValidReleasePage u
    then ([ShellOpenExternal u], Fulfilled tt)
    else ([], Fulfilled tt).
Proof.
  unfold openExternal. change (default "" (Some u)) with u. cbv zeta.
  destruct (isWhitelistedHost u || isValidReleasePage u); reflexivity.
Qed.

Lemma allow_listed_https (u : string) :
  allow_listed u → startsWith u "https://" = true.
Proof.
  intros [(entry & Hin & Hu)|[[rest ->]|[rest ->]]]; [|reflexivity..].
  simpl in Hin.
  repeat (destruct Hin as [<-|Hin];
          [destruct Hu as [->|[rest ->]]; reflexivity|]).
  destruct Hin.
Qed.

(** X10.  [openExternal] only ever hands the shell the URL it was given,
    and only if that URL starts with ["https://"]: no other scheme
    (file, javascript, custom protocol handlers) gets through, and a call
    without argument opens nothing. *)
Theorem openExternal_https_only
        (u : option string) (p : Platform) (v : string) :
  In v (opened_of (openExternal u p).1) →
  u = Some v ∧ startsWith v "https://" = true.
Proof.
  destruct u as [u|]; [|intros []].
  rewrite openExternal_eq.
  destruct (isWhitelistedHost u || isValidReleasePage u) eqn:E; [|intros []].
  intros [<-|[]]. split; [reflexivity|].
  by apply allow_listed_https, gate_spec.
Qed.

Lemma openExternal_https_only_witness :
  In "https://frame.sh/docs"
     (opened_of (openExternal (Some "https://frame.sh/docs") offline).1)
  ∧ Some "https://frame.sh/docs" = Some "https://frame.sh/docs"
  ∧ startsWith "https://frame.sh/docs" "https://" = true.
Proof.
  split; [left; reflexivity|].
  apply (openExternal_https_only (Some "https://frame.sh/docs") offline).
  left; reflexivity.
Defined.

(** X11.  The gate is closed under going down a path: if [openExternal]
    opens [u], it also opens [u/x] for every [x] (also below the entries
    that end in a query string, and below any release-tag URL). *)
Theorem openExternal_child_paths (u x : string) (p : Platform) :
  openExternal (Some u) p = ([ShellOpenExternal u], Fulfilled tt) →
  openExternal (Some (u +:+ "/" +:+ x)) p
  = ([ShellOpenExternal (u +:+ "/" +:+ x)], Fulfilled tt).
Proof.
  rewrite !openExternal_eq.
  destruct (isWhitelistedHost u || isValidReleasePage u) eqn:E; [|discriminate].
  intros _. apply gate_spec in E.
  assert (allow_listed (u +:+ "/" +:+ x)) as H%gate_spec; [|by rewrite H].
  destruct E as [(entry & Hin & Hu)|[[rest ->]|[rest ->]]].
  - left. exists entry. split; [exact Hin|]. right.
    destruct Hu as [->|[rest ->]]; [by exists x|].
    exists (rest +:+ "/" +:+ x). by rewrite !append_assoc'.
  - right. left. exists (rest +:+ "/" +:+ x). by rewrite append_assoc'.
  - right. right. exists (rest +:+ "/" +:+ x). by rewrite append_assoc'.
Qed.

Lemma openExternal_child_paths_witness :
  openExternal (Some "https://opensea.io") offline
  = ([ShellOpenExternal "https://opensea.io"], Fulfilled tt)
  ∧ openExternal (Some ("https://opensea.io" +:+ "/" +:+ "assets")) offline
    = ([ShellOpenExternal ("https://opensea.io" +:+ "/" +:+ "assets")], Fulfilled tt).
Proof.
  split; [reflexivity|].
  apply (openExternal_child_paths "https://opensea.io" "assets" offline).
  reflexivity.
Defined.

(* ===================================================================== *)
(** ** More on the window factory                                         *)
(* ===================================================================== *)

#[local] Arguments spread_then : simpl never.

Lemma spread_then_written (base : gmap string jsval)
      (kvs : list (string * jsval)) (k : string) (v : jsval) :
  last_binding k kvs = Some v → spread_then base kvs !! k = Some v.
Proof. intros H. by rewrite spread_then_lookup, H. Qed.

Lemma last_binding_unwritten (k : string) (kvs : list (string * jsval)) :
  ¬ In k (map fst kvs) → last_binding k kvs = None.
Proof.
  induction kvs as [|[k' v] rest IH]; simpl; [reflexivity|].
  intros H. rewrite IH by tauto.
  destruct (String.eqb_spec k' k); [tauto | reflexivity].
Qed.

Lemma spread_then_kept (base : gmap string jsval)
      (kvs : list (string * jsval)) (k : string) :
  ¬ In k (map fst kvs) → spread_then base kvs !! k = base !! k.
Proof. intros H. by rewrite spread_then_lookup, last_binding_unwritten. Qed.

Lemma preferences_of_literal (base prefs : gmap string jsval)
      (kvs : list (string * jsval)) :
  last_binding "webPreferences" kvs = Some (JObj prefs) →
  preferences_of (spread_then base kvs) = prefs.
Proof.
  intros H. unfold preferences_of. by rewrite (spread_then_written _ _ _ _ H).
Qed.

(** X12.  [createWindow] fixes the window options [frame], [acceptFirstMouse],
    [show], [transparent] and [skipTaskbar] itself, whatever [opts] says:
    frameless, accepting the first mouse click, hidden at creation,
    transparent exactly on macOS, and kept out of the task bar exactly on
    platforms other than Linux. *)
Theorem createWindow_fixed_options
        (name : string) (opts webPreferences : option (gmap string jsval))
        (p : Platform) :
  ∃ t bw,
    createWindow name opts webPreferences p = (t, Fulfilled bw)
    ∧ window_options bw !! "frame" = Some (JBool false)
    ∧ window_options bw !! "acceptFirstMouse" = Some (JBool true)
    ∧ window_options bw !! "show" = Some (JBool false)
    ∧ window_options bw !! "transparent"
      = Some (JBool (process_platform p =? "darwin")%string)
    ∧ window_options bw !! "skipTaskbar"
      = Some (JBool (negb (process_platform p =? "linux")%string)).
Proof.
  eexists _, _. split; [reflexivity|].
  repeat split; by apply spread_then_written.
Qed.

(** X13.  Every other window option the caller passes in [opts] reaches
    the window unchanged: for each key, either it is one of the six keys
    [createWindow] writes itself, or the window has exactly what [opts]
    has under that key (nothing, if [opts] has nothing or is absent). *)
Theorem createWindow_keeps_other_options
        (name : string) (opts webPreferences : option (gmap string jsval))
        (p : Platform) (k : string) :
  ∃ t bw,
    createWindow name opts webPreferences p = (t, Fulfilled bw)
    ∧ (In k window_option_keys
       ∨ window_options bw !! k = default ∅ opts !! k).
Proof.
  eexists _, _. split; [reflexivity|].
  destruct (in_dec string_dec k window_option_keys) as [Hin|Hout];
    [by left | right].
  by apply spread_then_kept.
Qed.

Example createWindow_keeps_size :
  ∃ t bw,
    createWindow "dash" (Some {[ "width" := JNum 360; "show" := JBool true ]})
                 None offline = (t, Fulfilled bw)
    ∧ window_options bw !! "width" = Some (JNum 360)
    ∧ window_options bw !! "show" = Some (JBool false)
    ∧ window_options bw !! "height" = None.
Proof. eexists _, _. split; [reflexivity|]. by vm_compute. Qed.

(** X14.  The preload script, the default encoding, drag-and-drop
    navigation and the disabled Blink feature are fixed by the factories
    as well: no caller preference can replace the preload script (the
    bundle's [bridge.js] for windows and overlays, [viewPreload.js] for
    views), re-enable navigation on drag and drop, or re-enable
    [Auxclick]. *)
Theorem factory_preload_fixed
        (name : string) (ens url : option string)
        (opts webPreferences : option (gmap string jsval)) (p : Platform) :
  let fixed (prefs : gmap string jsval) (preload : string) : Prop :=
    prefs !! "preload" = Some (JStr preload)
    ∧ prefs !! "defaultEncoding" = Some (JStr "utf-8")
    ∧ prefs !! "navigateOnDragDrop" = Some (JBool false)
    ∧ prefs !! "disableBlinkFeatures" = Some (JStr "Auxclick") in
  (∃ t bw, createWindow name opts webPreferences p = (t, Fulfilled bw)
           ∧ fixed (preferences_of (window_options bw))
                   (path_resolve p [BUNDLE_LOCATION p; "bridge.js"]))
  ∧ (∃ t bv, createViewInstance ens webPreferences p = (t, Fulfilled bv)
             ∧ fixed (preferences_of (view_options bv))
                     (path_resolve p ["./main/windows/viewPreload.js"]))
  ∧ (∃ t bv, createOverlayInstance url webPreferences p = (t, Fulfilled bv)
             ∧ fixed (preferences_of (view_options bv))
                     (path_resolve p [BUNDLE_LOCATION p; "bridge.js"])).
Proof.
  cbv zeta. repeat split;
    (eexists _, _; split; [reflexivity|];
     simpl window_options; simpl view_options;
     erewrite preferences_of_literal by reflexivity;
     repeat split; by apply spread_then_written).
Qed.

(** X15.  Every other web preference the caller passes reaches the surface
    unchanged: for each key, either it is one of the keys the factory
    writes itself, or the surface has exactly what the caller's
    [webPreferences] has under that key. *)
Theorem factory_keeps_other_preferences
        (name : string) (ens url : option string)
        (opts webPreferences : option (gmap string jsval)) (p : Platform)
        (k : string) :
  (∃ t bw, createWindow name opts webPreferences p = (t, Fulfilled bw)
           ∧ (In k window_preference_keys
              ∨ preferences_of (window_options bw) !! k
                = default ∅ webPreferences !! k))
  ∧ (∃ t bv, createViewInstance ens webPreferences p = (t, Fulfilled bv)
             ∧ (In k view_preference_keys
                ∨ preferences_of (view_options bv) !! k
                  = default ∅ webPreferences !! k))
  ∧ (∃ t bv, createOverlayInstance url webPreferences p = (t, Fulfilled bv)
             ∧ (In k overlay_preference_keys
                ∨ preferences_of (view_options bv) !! k
                  = default ∅ webPreferences !! k)).
Proof.
  split; [|split].
  - eexists _, _. split; [reflexivity|].
    destruct (in_dec string_dec k window_preference_keys); [by left | right].
    simpl window_options. erewrite preferences_of_literal by reflexivity.
    by apply spread_then_kept.
  - eexists _, _. split; [reflexivity|].
    destruct (in_dec string_dec k view_preference_keys); [by left | right].
    simpl view_options. erewrite preferences_of_literal by reflexivity.
    by apply spread_then_kept.
  - eexists _, _. split; [reflexivity|].
    destruct (in_dec string_dec k overlay_preference_keys); [by left | right].
    simpl view_options. erewrite preferences_of_literal by reflexivity.
    by apply spread_then_kept.
Qed.

(** X16.  A view's storage partition is ["persist:"] followed by its [ens]
    name (empty when the name is absent); the caller's preferences cannot
    change it, so two views share a partition exactly when they were
    created for the same name. *)
Theorem createViewInstance_partition
        (ens1 ens2 : option string)
        (prefs1 prefs2 : option (gmap string jsval)) (p : Platform) :
  ∃ t1 bv1 t2 bv2,
    createViewInstance ens1 prefs1 p = (t1, Fulfilled bv1)
    ∧ createViewInstance ens2 prefs2 p = (t2, Fulfilled bv2)
    ∧ preferences_of (view_options bv1) !! "partition"
      = Some (JStr ("persist:" +:+ default "" ens1))
    ∧ (preferences_of (view_options bv1) !! "partition"
       = preferences_of (view_options bv2) !! "partition"
       ↔ default "" ens1 = default "" ens2).
Proof.
  eexists _, _, _, _. split; [reflexivity|]. split; [reflexivity|].
  simpl view_options. erewrite !preferences_of_literal by reflexivity.
  erewrite !spread_then_written by reflexivity.
  split; [reflexivity|]. split.
  - intros [= H]. exact H.
  - by intros ->.
Qed.

Section Events.

(** Event names are compared as wholes. *)
#[local] Arguments String.eqb : simpl never.

(** Case analysis on the name of a delivered event. *)
Ltac by_event_name ev :=
  repeat match goal with
         | |- context [String.eqb ?l ev] =>
             destruct (String.eqb_spec l ev) as [<-|?]; simpl
         end;
  first [reflexivity | congruence].

(** X17.  On a surface fresh from a factory, delivering an event does the
    following and nothing else: [will-navigate] and [will-attach-webview]
    are prevented, silently (no log, no other effect); on a window,
    [did-finish-load] logs the renderer's process id and is not prevented;
    an event of any other name passes unchanged and without effect. *)
Theorem factory_event_delivery
        (name : string) (ens url : option string)
        (opts webPreferences : option (gmap string jsval)) (p q : Platform)
        (ev : string) (e : Event) :
  let blocked : list effect * settled Event :=
    if (("will-navigate" =? ev) || ("will-attach-webview" =? ev))%string
    then ([], Fulfilled {| defaultPrevented := true |})
    else ([], Fulfilled e) in
  (∃ t bw, createWindow name opts webPreferences p = (t, Fulfilled bw)
           ∧ emit ev (window_webContents bw) e q
             = if ("did-finish-load" =? ev)%string
               then ([LogInfo ("Created " +:+ name +:+ " renderer process, pid:")
                              (os_process_id q)], Fulfilled e)
               else blocked)
  ∧ (∃ t bv, createViewInstance ens webPreferences p = (t, Fulfilled bv)
             ∧ emit ev (view_webContents bv) e q = blocked)
  ∧ (∃ t bv, createOverlayInstance url webPreferences p = (t, Fulfilled bv)
             ∧ emit ev (view_webContents bv) e q = blocked).
Proof.
  cbv zeta. split; [|split]; eexists _, _; (split; [reflexivity|]);
    unfold emit; simpl; unfold bind, ask, perform, ret; by_event_name ev.
Qed.

End Events.

(* ===================================================================== *)
(** ** When nothing is opened                                             *)
(* ===================================================================== *)

Lemma replace_trailing_slashes_empty (s : string) :
  replace_trailing_slashes s = "" ↔ all_slashes s = true.
Proof.
  destruct s as [|c s]; simpl; [done|].
  destruct (Ascii.eqb c "/" && all_slashes s); split; done.
Qed.

(** X18.  [openBlockExplorer] does nothing at all exactly when the chain
    has no usable explorer: the configuration lookup yields nothing, or a
    string made only of ['/'] (the empty string included).  In every other
    case something is opened. *)
Theorem openBlockExplorer_noop_iff (r : OpenExplorer) (p : Platform) :
  openBlockExplorer r p = ([], Fulfilled tt)
  ↔ configured_explorer p r = None
    ∨ ∃ k, configured_explorer p r = Some (slashes k).
Proof.
  split.
  - intros Hrun.
    destruct (String.eqb_spec (explorer_of p r) "") as [E|E].
    + rewrite explorer_of_eq in E.
      destruct (configured_explorer p r) as [c|]; [right | by left].
      change (default "" (Some c)) with c in E.
      apply replace_trailing_slashes_empty, all_slashes_spec in E.
      exists (String.length c). by rewrite <- E.
    + exfalso. rewrite (openBlockExplorer_configured r p E) in Hrun.
      destruct (type r); try discriminate.
      destruct (address r) as [a|]; [|discriminate].
      destruct (truthy_string a); [|discriminate].
      destruct (getTokenUrl _ a (tokenId r) p) as [t [u|x]]; [|discriminate].
      injection Hrun as Hrun. by destruct t.
  - intros H. apply openBlockExplorer_no_explorer.
    destruct H as [->|[k ->]]; [reflexivity|].
    apply replace_trailing_slashes_slashes.
Qed.
